(** * HubSpot integration adapter: OAuth state / credential lifecycle and
      item normalisation

    A shallow embedding of [backend/integrations/hubspot.py] and of the
    process-local store of [backend/redis_client.py], with the properties
    of the OAuth flow and of the item fetcher stated over it.

    Python objects are the inductive type [value]; an operation that can
    raise returns a [result]; the handlers, which read and write the store
    and talk to the network, live in the monad [M] over [world].  Both are
    monads in stdpp's sense, so [x ← m; k] is sequencing and an exception
    skips the rest. *)

From Stdlib Require Import ZArith String Ascii List Bool Lia.
From stdpp Require Import base option list strings gmap pretty.

Local Open Scope Z_scope.

(** ** Python objects *)

(** The objects the program handles are the ones [json.loads] produces,
    plus [None].  A JSON number with a fraction or an exponent (a Python
    [float]) has no counterpart here. A [dict] keeps its insertion order. *)
#[warnings="-register-all"]
Inductive value : Type :=
| VNone
| VBool (b : bool)
| VInt (n : Z)
| VStr (s : string)
| VList (l : list value)
| VDict (d : list (string * value)).

(** [type(v).__name__] *)
Definition type_name (v : value) : string :=
  match v with
  | VNone => "NoneType"
  | VBool _ => "bool"
  | VInt _ => "int"
  | VStr _ => "str"
  | VList _ => "list"
  | VDict _ => "dict"
  end.

(** [bool(v)]: what [if v:] and [not v] test. *)
Definition truthy (v : value) : bool :=
  match v with
  | VNone => false
  | VBool b => b
  | VInt n => negb (n =? 0)
  | VStr s => negb (String.eqb s EmptyString)
  | VList l => match l with [] => false | _ => true end
  | VDict d => match d with [] => false | _ => true end
  end.

(** Lookup in a [dict]: the entry stored under [k], if any. *)
Fixpoint dict_lookup (k : string) (d : list (string * value)) : option value :=
  match d with
  | [] => None
  | (k', v) :: d' => if String.eqb k k' then Some v else dict_lookup k d'
  end.

(** [d[k] = v] on a [dict]: an existing key keeps its position. *)
Fixpoint dict_set (k : string) (v : value) (d : list (string * value))
  : list (string * value) :=
  match d with
  | [] => [(k, v)]
  | (k', v') :: d' =>
      if String.eqb k k' then (k, v) :: d' else (k', v') :: dict_set k v d'
  end.

(** The integer a [bool] or an [int] stands for in a comparison. *)
Definition as_int (v : value) : option Z :=
  match v with
  | VBool b => Some (if b then 1 else 0)
  | VInt n => Some n
  | _ => None
  end.

(** [a == b].  [True == 1]; lists compare element by element; dicts
    compare as maps, whatever their order. *)
Fixpoint py_eq (a b : value) {struct a} : bool :=
  match a, b with
  | VNone, VNone => true
  | VStr s, VStr t => String.eqb s t
  | VBool x, _ =>
      match as_int b with Some n => (if x then 1 else 0) =? n | None => false end
  | VInt x, _ =>
      match as_int b with Some n => x =? n | None => false end
  | VList xs, VList ys =>
      (fix list_eq (xs ys : list value) {struct xs} : bool :=
         match xs, ys with
         | [], [] => true
         | x :: xs', y :: ys' => py_eq x y && list_eq xs' ys'
         | _, _ => false
         end) xs ys
  | VDict d, VDict e =>
      (length d =? length e)%nat &&
      (fix sub (d : list (string * value)) {struct d} : bool :=
         match d with
         | [] => true
         | (k, v) :: d' =>
             match dict_lookup k e with
             | Some w => py_eq v w && sub d'
             | None => false
             end
         end) d
  | _, _ => false
  end.

(** [a != b] *)
Definition py_ne (a b : value) : bool := negb (py_eq a b).

(** ** Exceptions *)

(** [HTTPException] is FastAPI's; every other exception is kept by its
    class name and the text [str()] gives for it. *)
Inductive exn : Type :=
| HTTPException (status_code : Z) (detail : string)
| PyExc (cls : string) (msg : string).

(** [str(e)].  For [HTTPException] this is Starlette's [__str__]. *)
Definition exn_str (e : exn) : string :=
  match e with
  | HTTPException status_code detail => pretty status_code +:+ ": " +:+ detail
  | PyExc _ msg => msg
  end.

Definition is_HTTPException (e : exn) : bool :=
  match e with HTTPException _ _ => true | PyExc _ _ => false end.

Inductive result (A : Type) : Type :=
| Ok (a : A)
| Raise (e : exn).
Arguments Ok {A} a.
Arguments Raise {A} e.

#[global] Instance result_ret : MRet result := fun A a => Ok a.

#[global] Instance result_bind : MBind result := fun A B k r =>
  match r with
  | Ok a => k a
  | Raise e => Raise e
  end.

(** [[f(x) for x in l]], stopping at the first exception. *)
Fixpoint rmap {A B} (f : A -> result B) (l : list A) : result (list B) :=
  match l with
  | [] => Ok []
  | x :: l' => y ← f x; ys ← rmap f l'; Ok (y :: ys)
  end.

(** The double quote, for texts that contain one. *)
Definition dq : string := String (ascii_of_nat 34) EmptyString.

(** [v.get(k, default)] on any object: only a [dict] has the method. *)
Definition py_get (v : value) (k : string) (dflt : value) : result value :=
  match v with
  | VDict d => Ok (default dflt (dict_lookup k d))
  | _ => Raise (PyExc "AttributeError"
                  ("'" +:+ type_name v +:+ "' object has no attribute 'get'"))
  end.

(** [a + b] *)
Definition py_add (a b : value) : result value :=
  match a, b with
  | VStr s, VStr t => Ok (VStr (s +:+ t))
  | VStr _, _ =>
      Raise (PyExc "TypeError"
               ("can only concatenate str (not " +:+ dq +:+ type_name b +:+ dq
                +:+ ") to str"))
  | VList xs, VList ys => Ok (VList (xs ++ ys))
  | VList _, _ =>
      Raise (PyExc "TypeError"
               ("can only concatenate list (not " +:+ dq +:+ type_name b +:+ dq
                +:+ ") to list"))
  | _, _ =>
      match as_int a, as_int b with
      | Some x, Some y => Ok (VInt (x + y))
      | _, _ =>
          Raise (PyExc "TypeError"
                   ("unsupported operand type(s) for +: '" +:+ type_name a
                    +:+ "' and '" +:+ type_name b +:+ "'"))
      end
  end.

(** The one-character strings of [s], in order. *)
Fixpoint chars (s : string) : list value :=
  match s with
  | EmptyString => []
  | String c s' => VStr (String c EmptyString) :: chars s'
  end.

(** The elements [for x in v] goes through: a [dict] gives its keys, a
    [str] its characters. *)
Definition py_iter (v : value) : result (list value) :=
  match v with
  | VList l => Ok l
  | VDict d => Ok (map (fun kv => VStr (fst kv)) d)
  | VStr s => Ok (chars s)
  | _ => Raise (PyExc "TypeError"
                  ("'" +:+ type_name v +:+ "' object is not iterable"))
  end.

(** ** The store, the network and the trace *)

(** What a call into a library gives back: a value, or an exception of
    the library's own, by class name and text.  A library never raises the
    handlers' [HTTPException]. *)
Inductive outcome (A : Type) : Type :=
| Returned (a : A)
| Raised (cls msg : string).
Arguments Returned {A} a.
Arguments Raised {A} cls msg.

Definition outcome_result {A} (o : outcome A) : result A :=
  match o with
  | Returned a => Ok a
  | Raised cls msg => Raise (PyExc cls msg)
  end.

(** What the program reads of an HTTP response: the status and what
    [response.json()] gives (or raises). *)
Record Response : Type := {
  status_code : Z;
  json : outcome value;
}.

(** The remote side.  [client_post url data headers] is the outcome of
    [httpx]'s [client.post], [requests_get url headers params] the outcome
    of [requests.get]: a response, or the exception the call raises. *)
Record network : Type := {
  client_post :
    string -> list (string * value) -> list (string * string) -> outcome Response;
  requests_get :
    string -> list (string * string) -> list (string * Z) -> outcome Response;
}.

(** What an operation did to the outside, in order. *)
Inductive event : Type :=
| CacheSet (key value : string)
| CacheGet (key : string)
| CacheDelete (key : string)
| HttpPost (url : string) (data : list (string * value))
| HttpGet (url : string) (headers : list (string * string))
    (params : list (string * Z)).

(** The module state of [redis_client.py] and the trace of events so far.
    The module tries a Redis server at import time and falls back on two
    dicts of its own when none answers ([USE_REDIS = False]).  The server
    is outside the repository; what is modelled, here and in the three
    functions below, is the fallback, the branch whose behaviour the
    repository defines.  Clock readings ([time.time()]) are integers, in
    the unit [expire] is given in. *)
Record world : Type := {
  _memory_storage : gmap string string;
  _memory_expiry : gmap string Z;
  trace : list event;
}.

Definition log (ev : event) (w : world) : world :=
  {| _memory_storage := _memory_storage w;
     _memory_expiry := _memory_expiry w;
     trace := trace w ++ [ev] |}.

(** A handler: it runs from a world and ends in a world, with a value or
    an exception.  What was done before an exception stays done. *)
Definition M (A : Type) : Type := world -> result A * world.

#[global] Instance M_ret : MRet M := fun A a w => (Ok a, w).

#[global] Instance M_bind : MBind M := fun A B k m w =>
  match m w with
  | (Ok a, w') => k a w'
  | (Raise e, w') => (Raise e, w')
  end.

Definition raise {A} (e : exn) : M A := fun w => (Raise e, w).

Definition lift {A} (r : result A) : M A := fun w => (r, w).

(** [try: body / except Exception as e: handler e] *)
Definition try_except {A} (body : M A) (handler : exn -> M A) : M A := fun w =>
  match body w with
  | (Ok a, w') => (Ok a, w')
  | (Raise e, w') => handler e w'
  end.

(** [await asyncio.gather(a, b)].  Both awaitables are started, in the
    order given; neither is cancelled when the other raises, and the
    first exception is what the [await] raises once both have run.  Here
    [b] has no suspension point and [a] does not touch the store, so
    running [a] and then [b] is the only interleaving there is. *)
Definition asyncio_gather {A B} (a : M A) (b : M B) : M (A * B) := fun w =>
  let '(ra, w1) := a w in
  let '(rb, w2) := b w1 in
  match ra, rb with
  | Ok x, Ok y => (Ok (x, y), w2)
  | Raise e, _ => (Raise e, w2)
  | Ok _, Raise e => (Raise e, w2)
  end.

(** [None] or a [str], as a Python object. *)
Definition of_option (o : option string) : value :=
  match o with
  | Some s => VStr s
  | None => VNone
  end.

(** The request of the callback route, by its query string. *)
Record Request : Type := {
  query_params : list (string * string);
}.

(** [request.query_params.get(k)].  Starlette keeps the pairs of the
    query string, blank values included, and looks a key up in the dict
    built from them in order: the last value given for [k] is the one
    returned. *)
Fixpoint query_get (params : list (string * string)) (k : string)
  : option string :=
  match params with
  | [] => None
  | (k', v) :: params' =>
      match query_get params' k with
      | Some v' => Some v'
      | None => if String.eqb k k' then Some v else None
      end
  end.

Inductive HTMLResponse : Type :=
| HTMLResponse_content (content : string).

(** Modelled from the spec: [integrations/integration_item.py] is not among
    the sources; the item is the plain record of section 3, with the six
    fields the constructor calls set. *)
Module IntegrationItem.
Record t : Type := make {
  id : value;
  type : string;
  name : value;
  creation_time : value;
  last_modified_time : value;
  url : string;
}.
End IntegrationItem.

(** ** Library functions the module imports *)

(** [json.loads] and [json.dumps] on strings, and [repr] of a container,
    belong to the Python library and are taken through this interface.
    [json_loads s = None] stands for [json.loads(s)] raising
    [JSONDecodeError], whose text is [json_loads_error s]. *)
Class PyLib : Type := {
  json_loads : string -> option value;
  json_loads_error : string -> string;
  json_dumps : value -> string;
  py_repr : value -> string;
}.

Section Program.
Context {lib : PyLib}.

(** [str(v)], which is what an f-string field [{v}] inserts. *)
Definition py_str (v : value) : string :=
  match v with
  | VNone => "None"
  | VBool true => "True"
  | VBool false => "False"
  | VInt n => pretty n
  | VStr s => s
  | VList _ | VDict _ => py_repr v
  end.

(** [json.loads(v)] on any object: anything but a [str] is a [TypeError]. *)
Definition py_json_loads (v : value) : result value :=
  match v with
  | VStr s =>
      match json_loads s with
      | Some x => Ok x
      | None => Raise (PyExc "JSONDecodeError" (json_loads_error s))
      end
  | _ => Raise (PyExc "TypeError"
                  ("the JSON object must be str, bytes or bytearray, not "
                   +:+ type_name v))
  end.


(** *** redis_client.py *)

Definition add_key_value_redis (now : Z) (key value : string)
    (expire : option Z) : M unit := fun w =>
  (Ok (),
   {| _memory_storage := <[key := value]> (_memory_storage w);
      _memory_expiry :=
        match expire with
        | Some e =>
            if e =? 0 then _memory_expiry w
            else <[key := now + e]> (_memory_expiry w)
        | None => _memory_expiry w
        end;
      trace := trace w ++ [CacheSet key value] |}).

(** [del _memory_storage[key]] raises [KeyError] when the key is not there. *)
Definition get_value_redis (now : Z) (key : string) : M (option string) :=
  fun w =>
  let w := log (CacheGet key) w in
  match _memory_expiry w !! key with
  | Some deadline =>
      if now >? deadline then
        match _memory_storage w !! key with
        | Some _ =>
            (Ok None,
             {| _memory_storage := delete key (_memory_storage w);
                _memory_expiry := delete key (_memory_expiry w);
                trace := trace w |})
        | None => (Raise (PyExc "KeyError" (py_repr (VStr key))), w)
        end
      else (Ok (_memory_storage w !! key), w)
  | None => (Ok (_memory_storage w !! key), w)
  end.

(** Each [del] is guarded by [key in ...], so a missing key is left alone. *)
Definition delete_key_redis (key : string) : M unit := fun w =>
  (Ok (),
   {| _memory_storage := delete key (_memory_storage w);
      _memory_expiry := delete key (_memory_expiry w);
      trace := trace w ++ [CacheDelete key] |}).

(** *** hubspot.py *)

Definition CLIENT_ID : string := "your_hubspot_client_id".
Definition CLIENT_SECRET : string := "your_hubspot_client_secret".
Definition REDIRECT_URI : string :=
  "http://localhost:8000/integrations/hubspot/oauth2callback".
Definition SCOPE : string := "contacts%20oauth".

Definition authorization_url : string :=
  "https://app.hubspot.com/oauth/authorize?client_id=" +:+ CLIENT_ID
  +:+ "&redirect_uri=" +:+ REDIRECT_URI +:+ "&scope=" +:+ SCOPE.

(** The two families of keys. *)
Definition state_key (org_id user_id : value) : string :=
  "hubspot_state:" +:+ py_str org_id +:+ ":" +:+ py_str user_id.

Definition credentials_key (org_id user_id : value) : string :=
  "hubspot_credentials:" +:+ py_str org_id +:+ ":" +:+ py_str user_id.

(** The dict [authorize_hubspot] serialises; [nonce] is what
    [secrets.token_urlsafe(32)] returned. *)
Definition state_data_of (nonce : string) (user_id org_id : value) : value :=
  VDict [("state", VStr nonce); ("user_id", user_id); ("org_id", org_id)].

Definition authorize_hubspot (nonce : string) (now : Z)
    (user_id org_id : value) : M string :=
  let state_data := state_data_of nonce user_id org_id in
  let encoded_state := json_dumps state_data in
  _ ← add_key_value_redis now (state_key org_id user_id) encoded_state
        (Some 600);
  mret (authorization_url +:+ "&state=" +:+ encoded_state).

Definition close_window_script : string :=
"
    <html>
        <script>
            window.close();
        </script>
    </html>
    ".

Definition token_request_data (code : option string) : list (string * value) :=
  [("grant_type", VStr "authorization_code");
   ("client_id", VStr CLIENT_ID);
   ("client_secret", VStr CLIENT_SECRET);
   ("redirect_uri", VStr REDIRECT_URI);
   ("code", of_option code)].

(** [client.post(...)] / [requests.get(...)]: the request goes out (and is
    traced), the network answers or the call raises. *)
Definition post (net : network) (url : string) (data : list (string * value))
    (headers : list (string * string)) : M Response := fun w =>
  (outcome_result (client_post net url data headers), log (HttpPost url data) w).

Definition get (net : network) (url : string) (headers : list (string * string))
    (params : list (string * Z)) : M Response := fun w =>
  (outcome_result (requests_get net url headers params),
   log (HttpGet url headers params) w).

(** [t_get] and [t_set] are the clock readings of the lookup and of the
    final write. *)
Definition oauth2callback_hubspot (net : network) (t_get t_set : Z)
    (request : Request) : M HTMLResponse :=
  let error := query_get (query_params request) "error" in
  if truthy (of_option error) then
    raise (HTTPException 400 (default EmptyString error))
  else
    let code := query_get (query_params request) "code" in
    let encoded_state := query_get (query_params request) "state" in
    state_data ← lift (py_json_loads (of_option encoded_state));
    original_state ← lift (py_get state_data "state" VNone);
    user_id ← lift (py_get state_data "user_id" VNone);
    org_id ← lift (py_get state_data "org_id" VNone);
    saved_state ← get_value_redis t_get (state_key org_id user_id);
    mismatch ←
      (if negb (truthy (of_option saved_state)) then mret true
       else
         saved ← lift (py_json_loads (of_option saved_state));
         saved_nonce ← lift (py_get saved "state" VNone);
         mret (py_ne original_state saved_nonce));
    if mismatch : bool then
      raise (HTTPException 400 "State does not match.")
    else
      gathered ←
        asyncio_gather
          (post net "https://api.hubapi.com/oauth/v1/token"
             (token_request_data code)
             [("Content-Type", "application/x-www-form-urlencoded")])
          (delete_key_redis (state_key org_id user_id));
      let response := fst gathered in
      body ← lift (outcome_result (json response));
      _ ← add_key_value_redis t_set (credentials_key org_id user_id)
            (json_dumps body) (Some 600);
      mret (HTMLResponse_content close_window_script).

Definition get_hubspot_credentials (now : Z) (user_id org_id : value)
  : M value :=
  credentials ← get_value_redis now (credentials_key org_id user_id);
  if negb (truthy (of_option credentials)) then
    raise (HTTPException 400 "No credentials found.")
  else
    credentials ← lift (py_json_loads (of_option credentials));
    if negb (truthy credentials) then
      raise (HTTPException 400 "No credentials found.")
    else
      _ ← delete_key_redis (credentials_key org_id user_id);
      mret credentials.

(** The keyword arguments are evaluated in the order written. *)
Definition create_integration_item_metadata_object (response_json : value)
    (item_type : string) : result IntegrationItem.t :=
  id ← py_get response_json "id" VNone;
  properties ← py_get response_json "properties" (VDict []);
  firstname ← py_get properties "firstname" (VStr EmptyString);
  left ← py_add firstname (VStr " ");
  properties ← py_get response_json "properties" (VDict []);
  lastname ← py_get properties "lastname" (VStr EmptyString);
  name ← py_add left lastname;
  creation_time ← py_get response_json "createdAt" VNone;
  last_modified_time ← py_get response_json "updatedAt" VNone;
  id' ← py_get response_json "id" VNone;
  mret (IntegrationItem.make id item_type name creation_time
          last_modified_time ("https://app.hubspot.com/contacts/" +:+ py_str id')).

(** The item built in the loop over the companies, and over the deals. *)
Definition company_item (company : value) : result IntegrationItem.t :=
  id ← py_get company "id" VNone;
  properties ← py_get company "properties" (VDict []);
  name ← py_get properties "name" (VStr "Unnamed Company");
  creation_time ← py_get company "createdAt" VNone;
  last_modified_time ← py_get company "updatedAt" VNone;
  id' ← py_get company "id" VNone;
  mret (IntegrationItem.make id "Company" name creation_time
          last_modified_time ("https://app.hubspot.com/contacts/" +:+ py_str id')).

Definition deal_item (deal : value) : result IntegrationItem.t :=
  id ← py_get deal "id" VNone;
  properties ← py_get deal "properties" (VDict []);
  name ← py_get properties "dealname" (VStr "Unnamed Deal");
  creation_time ← py_get deal "createdAt" VNone;
  last_modified_time ← py_get deal "updatedAt" VNone;
  id' ← py_get deal "id" VNone;
  mret (IntegrationItem.make id "Deal" name creation_time
          last_modified_time ("https://app.hubspot.com/contacts/" +:+ py_str id')).

(** [if response.status_code == 200: for record in response.json().get('results', []): append(item record)];
    the items to append, in order. *)
Definition items_of_response (item : value -> result IntegrationItem.t)
    (response : Response) : result (list IntegrationItem.t) :=
  if status_code response =? 200 then
    data ← outcome_result (json response);
    results ← py_get data "results" (VList []);
    records ← py_iter results;
    rmap item records
  else Ok [].

Definition bearer_headers (access_token : value) : list (string * string) :=
  [("Authorization", "Bearer " +:+ py_str access_token);
   ("Content-Type", "application/json")].

(** The two [print] calls write to the standard output only and are left
    out. *)
Definition get_items_hubspot (net : network) (credentials : value)
  : M (list IntegrationItem.t) :=
  credentials ← lift (py_json_loads credentials);
  access_token ← lift (py_get credentials "access_token" VNone);
  if negb (truthy access_token) then
    raise (HTTPException 400 "No access token found in credentials.")
  else
    let list_of_integration_item_metadata := [] in
    try_except
      (contacts_response ←
         get net "https://api.hubapi.com/crm/v3/objects/contacts"
           (bearer_headers access_token) [("limit", 100)];
       contacts ←
         lift (items_of_response
                 (fun contact =>
                    create_integration_item_metadata_object contact "Contact")
                 contacts_response);
       let list_of_integration_item_metadata :=
         list_of_integration_item_metadata ++ contacts in
       companies_response ←
         get net "https://api.hubapi.com/crm/v3/objects/companies"
           (bearer_headers access_token) [("limit", 50)];
       companies ← lift (items_of_response company_item companies_response);
       let list_of_integration_item_metadata :=
         list_of_integration_item_metadata ++ companies in
       deals_response ←
         get net "https://api.hubapi.com/crm/v3/objects/deals"
           (bearer_headers access_token) [("limit", 50)];
       deals ← lift (items_of_response deal_item deals_response);
       let list_of_integration_item_metadata :=
         list_of_integration_item_metadata ++ deals in
       mret list_of_integration_item_metadata)
      (fun e =>
         raise (HTTPException 500 ("Error fetching HubSpot data: " +:+ exn_str e))).

(** *** The callback in two stages

    The body of [oauth2callback_hubspot] after the lookup, cut in two for
    the proofs: the test of the [if], and what follows it.
    [callback_stages] below shows that the handler is their sequence. *)

(** [not saved_state or original_state != json.loads(saved_state).get('state')] *)
Definition state_mismatch (original_state : value) (saved_state : option string)
  : result bool :=
  if negb (truthy (of_option saved_state)) then Ok true
  else
    saved ← py_json_loads (of_option saved_state);
    saved_nonce ← py_get saved "state" VNone;
    Ok (py_ne original_state saved_nonce).

Definition token_url : string := "https://api.hubapi.com/oauth/v1/token".

Definition token_request_headers : list (string * string) :=
  [("Content-Type", "application/x-www-form-urlencoded")].

(** The world after the POST went out and the state entry was deleted. *)
Definition after_exchange (code : option string) (org_id user_id : value)
    (w : world) : world :=
  snd (delete_key_redis (state_key org_id user_id)
         (log (HttpPost token_url (token_request_data code)) w)).

(** The outcome of the callback once the state was accepted. *)
Definition exchange_and_store (net : network) (t_set : Z) (code : option string)
    (org_id user_id : value) (w : world) : result HTMLResponse * world :=
  match client_post net token_url (token_request_data code)
          token_request_headers with
  | Raised cls msg => (Raise (PyExc cls msg), after_exchange code org_id user_id w)
  | Returned response =>
      match json response with
      | Raised cls msg =>
          (Raise (PyExc cls msg), after_exchange code org_id user_id w)
      | Returned body =>
          (Ok (HTMLResponse_content close_window_script),
           snd (add_key_value_redis t_set (credentials_key org_id user_id)
                  (json_dumps body) (Some 600)
                  (after_exchange code org_id user_id w)))
      end
  end.

(** [v] survives [json.loads(json.dumps(v))], and its serialisation, like
    every JSON text, is not the empty string. *)
Definition serializable (v : value) : Prop :=
  json_dumps v ≠ EmptyString ∧ json_loads (json_dumps v) = Some v.

End Program.

(** ** A reference instance of the library interface

    Used to run the handlers on concrete inputs.  Strings are sequences
    of characters with code below 256.  [json_dumps] writes what
    [json.dumps] writes with its default separators and ASCII escaping;
    [json_loads] reads JSON text whose numbers are integers and whose
    [\u] escapes stay below 256, and gives [None] on anything else. *)
Module Reference.

Local Open Scope nat_scope.

Definition backslash : string := String (ascii_of_nat 92) EmptyString.

Definition hex_digit (n : nat) : ascii :=
  ascii_of_nat (if n <? 10 then 48 + n else 87 + n).

Definition hex2 (n : nat) : string :=
  String (hex_digit (n / 16)) (String (hex_digit (n mod 16)) EmptyString).

(** How [json.dumps] writes one character inside a string. *)
Definition escape_char (c : ascii) : string :=
  let n := nat_of_ascii c in
  if n =? 34 then backslash +:+ dq
  else if n =? 92 then backslash +:+ backslash
  else if n =? 10 then backslash +:+ "n"
  else if n =? 13 then backslash +:+ "r"
  else if n =? 9 then backslash +:+ "t"
  else if n =? 8 then backslash +:+ "b"
  else if n =? 12 then backslash +:+ "f"
  else if (n <? 32) || (126 <? n) then backslash +:+ "u00" +:+ hex2 n
  else String c EmptyString.

Fixpoint escape (s : string) : string :=
  match s with
  | EmptyString => EmptyString
  | String c s' => escape_char c +:+ escape s'
  end.

Definition quoted (s : string) : string := dq +:+ escape s +:+ dq.

Fixpoint join (sep : string) (l : list string) : string :=
  match l with
  | [] => EmptyString
  | [x] => x
  | x :: l' => x +:+ sep +:+ join sep l'
  end.

Fixpoint dumps (v : value) : string :=
  match v with
  | VNone => "null"
  | VBool true => "true"
  | VBool false => "false"
  | VInt n => pretty n
  | VStr s => quoted s
  | VList l => "[" +:+ join ", " (map dumps l) +:+ "]"
  | VDict d =>
      "{" +:+ join ", " (map (fun kv => quoted (fst kv) +:+ ": " +:+ dumps (snd kv)) d)
      +:+ "}"
  end.

Definition is_ws (c : ascii) : bool :=
  let n := nat_of_ascii c in
  (n =? 32) || (n =? 9) || (n =? 10) || (n =? 13).

Fixpoint skip_ws (s : string) : string :=
  match s with
  | String c s' => if is_ws c then skip_ws s' else s
  | EmptyString => s
  end.

Definition digit_of (c : ascii) : option nat :=
  let n := nat_of_ascii c in
  if (48 <=? n) && (n <=? 57) then Some (n - 48) else None.

Definition hex_of (c : ascii) : option nat :=
  let n := nat_of_ascii c in
  if (48 <=? n) && (n <=? 57) then Some (n - 48)
  else if (97 <=? n) && (n <=? 102) then Some (n - 87)
  else if (65 <=? n) && (n <=? 70) then Some (n - 55)
  else None.

(** The four hex digits after [\u]. *)
Definition hex4 (s : string) : option (nat * string) :=
  match s with
  | String a (String b (String c (String d rest))) =>
      match hex_of a, hex_of b, hex_of c, hex_of d with
      | Some x, Some y, Some z, Some t =>
          Some (((x * 16 + y) * 16 + z) * 16 + t, rest)
      | _, _, _, _ => None
      end
  | _ => None
  end.

(** The characters of a string up to its closing quote, escapes decoded;
    [s] starts after the opening quote. *)
Fixpoint string_body (fuel : nat) (s : string) : option (string * string) :=
  match fuel, s with
  | S fuel', String c s' =>
      let n := nat_of_ascii c in
      if n =? 34 then Some (EmptyString, s')
      else if n <? 32 then None
      else if n =? 92 then
        match s' with
        | String e s'' =>
            let m := nat_of_ascii e in
            let plain (code : nat) :=
              match string_body fuel' s'' with
              | Some (body, rest) => Some (String (ascii_of_nat code) body, rest)
              | None => None
              end in
            if m =? 34 then plain 34
            else if m =? 92 then plain 92
            else if m =? 47 then plain 47
            else if m =? 98 then plain 8
            else if m =? 102 then plain 12
            else if m =? 110 then plain 10
            else if m =? 114 then plain 13
            else if m =? 116 then plain 9
            else if m =? 117 then
              match hex4 s'' with
              | Some (code, s3) =>
                  if code <? 256 then
                    match string_body fuel' s3 with
                    | Some (body, rest) =>
                        Some (String (ascii_of_nat code) body, rest)
                    | None => None
                    end
                  else None
              | None => None
              end
            else None
        | EmptyString => None
        end
      else
        match string_body fuel' s' with
        | Some (body, rest) => Some (String c body, rest)
        | None => None
        end
  | _, _ => None
  end.

Fixpoint digits (s : string) (acc : Z) : Z * string :=
  match s with
  | String c s' =>
      match digit_of c with
      | Some d => digits s' (10 * acc + Z.of_nat d)%Z
      | None => (acc, s)
      end
  | EmptyString => (acc, s)
  end.

(** An integer literal: [0], or a non-zero digit and more digits.  A
    fraction or an exponent after it makes the number a float. *)
Definition natural (s : string) : option (Z * string) :=
  match s with
  | String c s' =>
      match digit_of c with
      | Some d =>
          let '(n, rest) := if d =? 0 then (0%Z, s') else digits s' (Z.of_nat d) in
          match rest with
          | String c' _ =>
              let m := nat_of_ascii c' in
              if (m =? 46) || (m =? 101) || (m =? 69) then None
              else Some (n, rest)
          | EmptyString => Some (n, rest)
          end
      | None => None
      end
  | EmptyString => None
  end.

Definition number (s : string) : option (Z * string) :=
  match s with
  | String c s' =>
      if nat_of_ascii c =? 45 then
        match natural s' with
        | Some (n, rest) => Some ((- n)%Z, rest)
        | None => None
        end
      else natural s
  | EmptyString => None
  end.

(** [s] without the prefix [p], when it starts with it. *)
Fixpoint strip (p s : string) : option string :=
  match p, s with
  | EmptyString, _ => Some s
  | String a p', String b s' => if Ascii.eqb a b then strip p' s' else None
  | String _ _, EmptyString => None
  end.

Fixpoint parse_value (fuel : nat) (s : string) : option (value * string) :=
  match fuel with
  | O => None
  | S fuel' =>
      match skip_ws s with
      | String c s' =>
          let n := nat_of_ascii c in
          if n =? 34 then
            match string_body (String.length s') s' with
            | Some (body, rest) => Some (VStr body, rest)
            | None => None
            end
          else if n =? 91 then
            match skip_ws s' with
            | String c' rest =>
                if nat_of_ascii c' =? 93 then Some (VList [], rest)
                else
                  match parse_items fuel' s' with
                  | Some (l, rest') => Some (VList l, rest')
                  | None => None
                  end
            | EmptyString => None
            end
          else if n =? 123 then
            match skip_ws s' with
            | String c' rest =>
                if nat_of_ascii c' =? 125 then Some (VDict [], rest)
                else
                  match parse_members fuel' s' [] with
                  | Some (d, rest') => Some (VDict d, rest')
                  | None => None
                  end
            | EmptyString => None
            end
          else
            match strip "null" (String c s'), strip "true" (String c s'),
                  strip "false" (String c s') with
            | Some rest, _, _ => Some (VNone, rest)
            | _, Some rest, _ => Some (VBool true, rest)
            | _, _, Some rest => Some (VBool false, rest)
            | _, _, _ =>
                match number (String c s') with
                | Some (z, rest) => Some (VInt z, rest)
                | None => None
                end
            end
      | EmptyString => None
      end
  end
with parse_items (fuel : nat) (s : string) : option (list value * string) :=
  match fuel with
  | O => None
  | S fuel' =>
      match parse_value fuel' s with
      | Some (v, rest) =>
          match skip_ws rest with
          | String c rest' =>
              let n := nat_of_ascii c in
              if n =? 44 then
                match parse_items fuel' rest' with
                | Some (l, rest'') => Some (v :: l, rest'')
                | None => None
                end
              else if n =? 93 then Some ([v], rest')
              else None
          | EmptyString => None
          end
      | None => None
      end
  end
with parse_members (fuel : nat) (s : string) (acc : list (string * value))
  : option (list (string * value) * string) :=
  match fuel with
  | O => None
  | S fuel' =>
      match skip_ws s with
      | String q s1 =>
          if nat_of_ascii q =? 34 then
            match string_body (String.length s1) s1 with
            | Some (k, s2) =>
                match skip_ws s2 with
                | String colon s3 =>
                    if nat_of_ascii colon =? 58 then
                      match parse_value fuel' s3 with
                      | Some (v, s4) =>
                          match skip_ws s4 with
                          | String c s5 =>
                              let n := nat_of_ascii c in
                              if n =? 44 then
                                parse_members fuel' s5 (dict_set k v acc)
                              else if n =? 125 then Some (dict_set k v acc, s5)
                              else None
                          | EmptyString => None
                          end
                      | None => None
                      end
                    else None
                | EmptyString => None
                end
            | None => None
            end
          else None
      | EmptyString => None
      end
  end.

Definition loads (s : string) : option value :=
  match parse_value (2 * String.length s + 2) s with
  | Some (v, rest) =>
      match skip_ws rest with
      | EmptyString => Some v
      | String _ _ => None
      end
  | None => None
  end.

(** [repr] of a string of printable ASCII characters and the usual
    control characters. *)
Fixpoint has_char (n : nat) (s : string) : bool :=
  match s with
  | EmptyString => false
  | String c s' => (nat_of_ascii c =? n) || has_char n s'
  end.

Definition repr_char (quote : nat) (c : ascii) : string :=
  let n := nat_of_ascii c in
  if (n =? quote) || (n =? 92) then backslash +:+ String c EmptyString
  else if n =? 10 then backslash +:+ "n"
  else if n =? 13 then backslash +:+ "r"
  else if n =? 9 then backslash +:+ "t"
  else if (n <? 32) || (126 <? n) then backslash +:+ "x" +:+ hex2 n
  else String c EmptyString.

Fixpoint repr_chars (quote : nat) (s : string) : string :=
  match s with
  | EmptyString => EmptyString
  | String c s' => repr_char quote c +:+ repr_chars quote s'
  end.

Definition repr_str (s : string) : string :=
  let quote := if has_char 39 s && negb (has_char 34 s) then 34 else 39 in
  let q := String (ascii_of_nat quote) EmptyString in
  q +:+ repr_chars quote s +:+ q.

Fixpoint repr (v : value) : string :=
  match v with
  | VNone => "None"
  | VBool true => "True"
  | VBool false => "False"
  | VInt n => pretty n
  | VStr s => repr_str s
  | VList l => "[" +:+ join ", " (map repr l) +:+ "]"
  | VDict d =>
      "{" +:+ join ", " (map (fun kv => repr_str (fst kv) +:+ ": " +:+ repr (snd kv)) d)
      +:+ "}"
  end.

(** The text of the [JSONDecodeError] is the one of a document that does
    not start with a value; the position of a later fault is not
    computed. *)
Definition lib : PyLib := {|
  json_loads := loads;
  json_loads_error := fun _ => "Expecting value: line 1 column 1 (char 0)";
  json_dumps := dumps;
  py_repr := repr;
|}.

End Reference.

(** ** Concrete worlds *)

Definition empty_world : world :=
  {| _memory_storage := ∅; _memory_expiry := ∅; trace := [] |}.

(** A network on which every call fails to connect. *)
Definition offline : network :=
  {| client_post := fun _ _ _ => Raised "ConnectError" "All connection attempts failed";
     requests_get := fun _ _ _ => Raised "ConnectionError" "Connection refused" |}.

(** A token endpoint that answers every POST with [status] and [body]. *)
Definition token_endpoint (status : Z) (body : value) : network :=
  {| client_post := fun _ _ _ =>
       Returned {| status_code := status; json := Returned body |};
     requests_get := fun _ _ _ => Raised "ConnectionError" "Connection refused" |}.

(** Provider endpoints that answer the three GETs with the given
    outcomes, whatever the headers. *)
Definition crm (contacts companies deals : outcome Response) : network :=
  {| client_post := fun _ _ _ => Raised "ConnectError" "All connection attempts failed";
     requests_get := fun url _ _ =>
       if String.eqb url "https://api.hubapi.com/crm/v3/objects/contacts"
       then contacts
       else if String.eqb url "https://api.hubapi.com/crm/v3/objects/companies"
       then companies
       else deals |}.

(** A response with [status] whose body is [{'results': results}]. *)
Definition results_response (status : Z) (results : list value) : outcome Response :=
  Returned {| status_code := status;
              json := Returned (VDict [("results", VList results)]) |}.

(** One authorization cycle on the reference library: user [u1] of
    organisation [o1] authorizes at time 1000 in the empty world, and the
    provider calls back with the state of the URL. *)
Definition example_state : value :=
  state_data_of "n0nce" (VStr "u1") (VStr "o1").

Definition example_encoded_state : string := Reference.dumps example_state.

Definition authorized : world :=
  snd (authorize_hubspot (lib := Reference.lib) "n0nce" 1000 (VStr "u1")
         (VStr "o1") empty_world).

Definition example_callback : Request :=
  {| query_params := [("code", "c0"); ("state", example_encoded_state)] |}.

Definition example_credentials : value :=
  VDict [("access_token", VStr "tok"); ("expires_in", VInt 1800)].

(** The world after the callback at times 1001 (lookup) and 1002 (write),
    the token endpoint answering with [example_credentials]. *)
Definition called_back : world :=
  snd (oauth2callback_hubspot (lib := Reference.lib)
         (token_endpoint 200 example_credentials) 1001 1002 example_callback
         authorized).

(** A deal record without a [dealname]. *)
Definition example_deal : value :=
  VDict [("id", VStr "7"); ("properties", VDict [("amount", VStr "10")]);
         ("createdAt", VStr "t3"); ("updatedAt", VStr "t4")].

(** The contact record of the example. *)
Definition example_contact : value :=
  VDict [("id", VStr "1");
         ("properties", VDict [("firstname", VStr "A"); ("lastname", VStr "B")]);
         ("createdAt", VStr "t1");
         ("updatedAt", VStr "t2")].

(** A company record with a name. *)
Definition example_company : value :=
  VDict [("id", VStr "5");
         ("properties", VDict [("name", VStr "Acme")]);
         ("createdAt", VStr "t7");
         ("updatedAt", VStr "t8")].

(** The store is consistent when every key with a deadline has a value:
    [get_value_redis] deletes both entries of an expired key, and its
    [del _memory_storage[key]] needs the value to be there. *)
Definition store_ok (w : world) : Prop :=
  ∀ k, is_Some (_memory_expiry w !! k) → is_Some (_memory_storage w !! k).

(** A handler keeps the store consistent. *)
Definition preserves {A} (m : M A) : Prop :=
  ∀ w, store_ok w → store_ok (snd (m w)).

(** [key] is in neither dict. *)
Definition absent (key : string) (w : world) : Prop :=
  _memory_storage w !! key = None ∧ _memory_expiry w !! key = None.

(** Worlds and records for the further properties, on the reference
    library. *)

(** The value ["v"] written under ["k"] at clock 5 with 10 to live. *)
Definition short_lived : world :=
  snd (add_key_value_redis 5 "k" "v" (Some 10) empty_world).

(** A store no call leads to: a deadline without a value. *)
Definition inconsistent : world :=
  {| _memory_storage := ∅; _memory_expiry := {["k" := 5]}; trace := [] |}.

(** The example authorization, made again at clock 1100 with another
    nonce. *)
Definition authorized_again : world :=
  snd (authorize_hubspot (lib := Reference.lib) "n1nce" 1100 (VStr "u1")
         (VStr "o1") authorized).

(** The example cycle with a token endpoint that answers with the empty
    object. *)
Definition called_back_empty : world :=
  snd (oauth2callback_hubspot (lib := Reference.lib)
         (token_endpoint 200 (VDict [])) 1001 1002 example_callback
         authorized).

(** An error answer of the token endpoint. *)
Definition example_error_body : value :=
  VDict [("status", VStr "BAD_AUTH_CODE");
         ("message", VStr "missing or unknown auth code")].

(** A contact as the provider sends it when the first name is not set. *)
Definition example_contact_null : value :=
  VDict [("id", VStr "2");
         ("properties", VDict [("firstname", VNone); ("lastname", VStr "C")]);
         ("createdAt", VStr "t5");
         ("updatedAt", VStr "t6")].

(** ** Notions for the further properties *)

(** The two dicts hold for [k] in [w'] what they hold in [w]. *)
Definition same_at (k : string) (w w' : world) : Prop :=
  _memory_storage w' !! k = _memory_storage w !! k
  ∧ _memory_expiry w' !! k = _memory_expiry w !! k.

(** A handler leaves the key [k] alone. *)
Definition leaves {A} (k : string) (m : M A) : Prop :=
  ∀ w, same_at k w (snd (m w)).

(** A handler leaves the whole store alone. *)
Definition store_untouched {A} (m : M A) : Prop :=
  ∀ w, _memory_storage (snd (m w)) = _memory_storage w
       ∧ _memory_expiry (snd (m w)) = _memory_expiry w.

Section Notions.
Context {lib : PyLib}.

(** The worlds a process can be in: it starts with both dicts empty, and
    every call of a function of the two modules, with any arguments, at
    any clock reading and on any network, leads to the next. *)
Inductive reachable : world → Prop :=
| reachable_start : reachable empty_world
| reachable_add now key v expire w :
    reachable w → reachable (snd (add_key_value_redis now key v expire w))
| reachable_get_value now key w :
    reachable w → reachable (snd (get_value_redis now key w))
| reachable_delete key w :
    reachable w → reachable (snd (delete_key_redis key w))
| reachable_authorize nonce now user_id org_id w :
    reachable w →
    reachable (snd (authorize_hubspot nonce now user_id org_id w))
| reachable_callback net t_get t_set request w :
    reachable w →
    reachable (snd (oauth2callback_hubspot net t_get t_set request w))
| reachable_credentials now user_id org_id w :
    reachable w →
    reachable (snd (get_hubspot_credentials now user_id org_id w))
| reachable_items net credentials w :
    reachable w → reachable (snd (get_items_hubspot net credentials w)).

(** The three GETs of [get_items_hubspot], in the order it sends them. *)
Definition items_requests (access_token : value) : list event :=
  [HttpGet "https://api.hubapi.com/crm/v3/objects/contacts"
     (bearer_headers access_token) [("limit", 100)];
   HttpGet "https://api.hubapi.com/crm/v3/objects/companies"
     (bearer_headers access_token) [("limit", 50)];
   HttpGet "https://api.hubapi.com/crm/v3/objects/deals"
     (bearer_headers access_token) [("limit", 50)]].

End Notions.

(** ** Properties *)

Section Properties.
Context {lib : PyLib}.

Ltac unfold_monad :=
  unfold mbind, mret, M_bind, M_ret, result_bind, result_ret, lift, raise.

(** *** Sequencing *)

Lemma bind_Ok {A B} (m : M A) (k : A → M B) w a w' :
  m w = (Ok a, w') → (m ≫= k) w = k a w'.
Proof. intros H. unfold mbind, M_bind. by rewrite H. Qed.

Lemma bind_Raise {A B} (m : M A) (k : A → M B) w e w' :
  m w = (Raise e, w') → (m ≫= k) w = (Raise e, w').
Proof. intros H. unfold mbind, M_bind. by rewrite H. Qed.

Lemma bind_lift_Ok {A B} (a : A) (k : A → M B) w :
  (lift (Ok a) ≫= k) w = k a w.
Proof. reflexivity. Qed.

Lemma bind_lift_Raise {A B} e (k : A → M B) w :
  (lift (Raise e) ≫= k) w = (Raise e, w).
Proof. reflexivity. Qed.

Lemma truthy_of_option_false o :
  truthy (of_option o) = false ↔ o = None ∨ o = Some EmptyString.
Proof.
  destruct o as [s|]; simpl.
  - rewrite negb_false_iff, String.eqb_eq. split.
    + intros ->. by right.
    + intros [?|?]; congruence.
  - split; [by left | done].
Qed.

Lemma truthy_of_option_true o :
  truthy (of_option o) = true ↔ ∃ s, o = Some s ∧ s ≠ EmptyString.
Proof.
  destruct o as [s|]; simpl.
  - rewrite negb_true_iff, String.eqb_neq. split.
    + intros H. by exists s.
    + intros (s' & [= <-] & H). done.
  - split; [done | by intros (s & ? & _)].
Qed.

(** *** The item fetcher: what happens before any request *)

(** C7.  Credentials that parse to an object without an [access_token]
    entry end [get_items_hubspot] in
    [HTTPException(400, 'No access token found in credentials.')], in the
    world it started from: no request has been issued. *)
Theorem items_missing_token net s d w :
  json_loads s = Some (VDict d) →
  dict_lookup "access_token" d = None →
  get_items_hubspot net (VStr s) w
  = (Raise (HTTPException 400 "No access token found in credentials."), w).
Proof.
  intros Hs Hd. unfold get_items_hubspot, py_json_loads. rewrite Hs.
  rewrite bind_lift_Ok. unfold py_get. rewrite Hd. reflexivity.
Qed.


#[local] Arguments state_key : simpl never.
#[local] Arguments credentials_key : simpl never.

(** *** The two families of keys never meet *)

Lemma state_key_ne_credentials_key org_id user_id org_id' user_id' :
  state_key org_id user_id ≠ credentials_key org_id' user_id'.
Proof. unfold state_key, credentials_key. simpl. discriminate. Qed.

(** *** The callback, stage by stage *)

Lemma callback_stages net t_get t_set request w s sd :
  truthy (of_option (query_get (query_params request) "error")) = false →
  query_get (query_params request) "state" = Some s →
  json_loads s = Some (VDict sd) →
  let org_id := default VNone (dict_lookup "org_id" sd) in
  let user_id := default VNone (dict_lookup "user_id" sd) in
  oauth2callback_hubspot net t_get t_set request w
  = match get_value_redis t_get (state_key org_id user_id) w with
    | (Raise e, w1) => (Raise e, w1)
    | (Ok saved_state, w1) =>
        match state_mismatch (default VNone (dict_lookup "state" sd)) saved_state with
        | Raise e => (Raise e, w1)
        | Ok true => (Raise (HTTPException 400 "State does not match."), w1)
        | Ok false =>
            exchange_and_store net t_set
              (query_get (query_params request) "code") org_id user_id w1
        end
    end.
Proof.
  intros Herr Hstate Hs org_id user_id.
  unfold oauth2callback_hubspot. rewrite Herr, Hstate.
  cbn [of_option py_json_loads]. rewrite Hs, bind_lift_Ok.
  cbn [py_get]. rewrite !bind_lift_Ok.
  fold org_id user_id.
  unfold state_mismatch, exchange_and_store, after_exchange, asyncio_gather,
    post, token_url, token_request_headers.
  unfold_monad.
  destruct (get_value_redis t_get (state_key org_id user_id) w)
    as [[saved_state|e] w1]; [|reflexivity].
  destruct (negb (truthy (of_option saved_state))); [reflexivity|].
  destruct (py_json_loads (of_option saved_state)) as [saved|e]; [|reflexivity].
  destruct (py_get saved "state" VNone) as [saved_nonce|e]; [|reflexivity].
  destruct (py_ne _ saved_nonce); [reflexivity|].
  destruct (client_post net _ _ _) as [response|cls msg]; cbn; [|reflexivity].
  destruct (json response) as [body|cls msg]; reflexivity.
Qed.

(** *** The callback: provider error and malformed state *)

(** C8 (as amended).  A callback whose [error] parameter is present and
    not empty fails with [HTTPException(400, detail=<that text>)], and the
    world it ends in is the one it started from: the store is neither
    read, written nor deleted from, and nothing is sent. *)
Theorem callback_provider_error net t_get t_set request w e :
  query_get (query_params request) "error" = Some e →
  e ≠ EmptyString →
  oauth2callback_hubspot net t_get t_set request w
  = (Raise (HTTPException 400 e), w).
Proof.
  intros Herr Hne. unfold oauth2callback_hubspot. rewrite Herr.
  assert (truthy (of_option (Some e)) = true) as ->.
  { apply truthy_of_option_true. by exists e. }
  reflexivity.
Qed.

(** C9 (as amended).  The state is not validated.  With no (non-empty)
    [error] parameter: an absent [state] ends the callback in the
    [TypeError] of [json.loads(None)]; a [state] that is not JSON ends it
    in the decoder's [JSONDecodeError]; a [state] that is JSON but not an
    object ends it in the [AttributeError] of [.get].  None of these is an
    [HTTPException], and the world is left as it was.  A [state] that is
    an object goes to the lookup as it is, a missing field read as [None]:
    when nothing is stored under the key so built, the callback ends in
    [HTTPException(400, 'State does not match.')]. *)
Theorem callback_malformed_state net t_get t_set request w :
  truthy (of_option (query_get (query_params request) "error")) = false →
  (query_get (query_params request) "state" = None →
   oauth2callback_hubspot net t_get t_set request w
   = (Raise (PyExc "TypeError"
               "the JSON object must be str, bytes or bytearray, not NoneType"),
      w))
  ∧ (∀ s, query_get (query_params request) "state" = Some s →
          json_loads s = None →
          oauth2callback_hubspot net t_get t_set request w
          = (Raise (PyExc "JSONDecodeError" (json_loads_error s)), w))
  ∧ (∀ s v, query_get (query_params request) "state" = Some s →
            json_loads s = Some v →
            (∀ d, v ≠ VDict d) →
            oauth2callback_hubspot net t_get t_set request w
            = (Raise (PyExc "AttributeError"
                        ("'" +:+ type_name v
                         +:+ "' object has no attribute 'get'")), w))
  ∧ (∀ s sd, query_get (query_params request) "state" = Some s →
             json_loads s = Some (VDict sd) →
             fst (get_value_redis t_get
                    (state_key (default VNone (dict_lookup "org_id" sd))
                       (default VNone (dict_lookup "user_id" sd))) w)
             = Ok None →
             fst (oauth2callback_hubspot net t_get t_set request w)
             = Raise (HTTPException 400 "State does not match.")).
Proof.
  intros Herr. split; [|split; [|split]].
  - intros Hstate. unfold oauth2callback_hubspot. by rewrite Herr, Hstate.
  - intros s Hstate Hs. unfold oauth2callback_hubspot. rewrite Herr, Hstate.
    unfold py_json_loads. simpl. by rewrite Hs.
  - intros s v Hstate Hv Hnd. unfold oauth2callback_hubspot.
    rewrite Herr, Hstate. unfold py_json_loads. simpl. rewrite Hv.
    rewrite bind_lift_Ok.
    destruct v; try reflexivity. by destruct (Hnd d).
  - intros s sd Hstate Hs Hget.
    rewrite (callback_stages _ _ _ _ _ _ _ Herr Hstate Hs).
    destruct (get_value_redis t_get _ w) as [r w1].
    cbn [fst] in Hget. by subst r.
Qed.

(** *** The store *)

Lemma get_value_redis_absent now key w :
  absent key w →
  get_value_redis now key w = (Ok None, log (CacheGet key) w).
Proof.
  intros [Hs He]. unfold get_value_redis.
  cbn [log _memory_expiry _memory_storage]. by rewrite He, Hs.
Qed.

(** A value written with a time to live is read back until the deadline
    has passed. *)
Lemma get_value_redis_fresh now t e key v w :
  e ≠ 0 → now ≤ t + e →
  get_value_redis now key (snd (add_key_value_redis t key v (Some e) w))
  = (Ok (Some v),
     log (CacheGet key) (snd (add_key_value_redis t key v (Some e) w))).
Proof.
  intros He Hnow. unfold get_value_redis, add_key_value_redis.
  cbn [snd log _memory_expiry _memory_storage].
  destruct (Z.eqb_spec e 0) as [|_]; [done|].
  rewrite lookup_insert_eq.
  destruct (Z.gtb_spec now (t + e)) as [|_]; [lia|].
  by rewrite lookup_insert_eq.
Qed.

(** The only exception [get_value_redis] can raise is the [KeyError] of
    its [del]. *)
Lemma get_value_redis_Raise now key w e w' :
  get_value_redis now key w = (Raise e, w') → is_HTTPException e = false.
Proof.
  unfold get_value_redis.
  destruct (_memory_expiry (log (CacheGet key) w) !! key) as [deadline|];
    [|by intros [= ]].
  destruct (now >? deadline); [|by intros [= ]].
  destruct (_memory_storage (log (CacheGet key) w) !! key); [by intros [= ]|].
  by intros [= <- _].
Qed.

Lemma get_value_redis_trace now key w r w' :
  get_value_redis now key w = (r, w') → trace w' = trace w ++ [CacheGet key].
Proof.
  unfold get_value_redis.
  destruct (_memory_expiry (log (CacheGet key) w) !! key) as [deadline|];
    [|by intros [= _ <-]].
  destruct (now >? deadline); [|by intros [= _ <-]].
  destruct (_memory_storage (log (CacheGet key) w) !! key);
    by intros [= _ <-].
Qed.

Lemma absent_log key ev w : absent key w → absent key (log ev w).
Proof. by intros [??]. Qed.

Lemma absent_delete key w : absent key (snd (delete_key_redis key w)).
Proof. split; apply lookup_delete_eq. Qed.

Lemma absent_add key key' t v e w :
  key ≠ key' → absent key w →
  absent key (snd (add_key_value_redis t key' v e w)).
Proof.
  intros Hne [Hs He]. split; cbn.
  - by rewrite lookup_insert_ne.
  - destruct e as [e|]; [|done].
    destruct (e =? 0); [done|]. by rewrite lookup_insert_ne.
Qed.

Lemma absent_after_exchange code org_id user_id w :
  absent (state_key org_id user_id) (after_exchange code org_id user_id w).
Proof. apply absent_delete. Qed.

Lemma trace_after_exchange code org_id user_id w :
  trace (after_exchange code org_id user_id w)
  = trace w
    ++ [HttpPost token_url (token_request_data code);
        CacheDelete (state_key org_id user_id)].
Proof. cbn. by rewrite <- app_assoc. Qed.

Lemma absent_exchange_and_store net t_set code org_id user_id w :
  absent (state_key org_id user_id)
    (snd (exchange_and_store net t_set code org_id user_id w)).
Proof.
  unfold exchange_and_store.
  destruct (client_post net _ _ _) as [response|cls msg];
    [|apply absent_after_exchange].
  destruct (json response) as [body|cls msg]; [|apply absent_after_exchange].
  apply absent_add;
    [apply state_key_ne_credentials_key | apply absent_after_exchange].
Qed.

(** Past the state check, the callback ends well or in an exception of a
    library, never in an [HTTPException]. *)
Lemma exchange_and_store_Raise net t_set code org_id user_id w e :
  fst (exchange_and_store net t_set code org_id user_id w) = Raise e →
  is_HTTPException e = false.
Proof.
  unfold exchange_and_store.
  destruct (client_post net _ _ _) as [response|cls msg];
    [|by intros [= <-]].
  destruct (json response) as [body|cls msg]; [done | by intros [= <-]].
Qed.

(** *** The state check *)

(** C2.  For a callback with no (non-empty) [error] parameter whose
    [state] parses to an object, and a store whose entry under the state
    key, if it has one, is not the empty string: the callback ends in
    [HTTPException(400, 'State does not match.')] exactly when the lookup
    under the key built from the parsed [org_id] and [user_id] finds
    nothing, or finds a serialised object whose ['state'] differs from the
    one presented. *)
Theorem callback_state_mismatch_iff net t_get t_set request w s sd :
  truthy (of_option (query_get (query_params request) "error")) = false →
  query_get (query_params request) "state" = Some s →
  json_loads s = Some (VDict sd) →
  let original_state := default VNone (dict_lookup "state" sd) in
  let key :=
    state_key (default VNone (dict_lookup "org_id" sd))
      (default VNone (dict_lookup "user_id" sd)) in
  (∀ saved,
     fst (get_value_redis t_get key w) = Ok (Some saved) →
     saved ≠ EmptyString) →
  fst (oauth2callback_hubspot net t_get t_set request w)
  = Raise (HTTPException 400 "State does not match.")
  ↔ fst (get_value_redis t_get key w) = Ok None
    ∨ ∃ saved cd,
        fst (get_value_redis t_get key w) = Ok (Some saved)
        ∧ json_loads saved = Some (VDict cd)
        ∧ py_ne original_state (default VNone (dict_lookup "state" cd)) = true.
Proof.
  intros Herr Hstate Hs original_state key Hsaved.
  rewrite (callback_stages _ _ _ _ _ _ _ Herr Hstate Hs).
  fold key original_state.
  destruct (get_value_redis t_get key w) as [[[saved|]|e] w1] eqn:Hget;
    cbn [fst] in *.
  - specialize (Hsaved saved eq_refl).
    unfold state_mismatch. cbn [of_option truthy].
    apply String.eqb_neq in Hsaved. rewrite Hsaved. cbn [negb py_json_loads].
    destruct (json_loads saved) as [v|] eqn:Hv.
    + destruct v as [| | | |l|cd];
        try (cbn; split;
             [discriminate
             | intros [[=]|(? & ? & [= <-] & Hcd & _)]; congruence]).
      cbn [mbind result_bind py_get].
      destruct (py_ne original_state (default VNone (dict_lookup "state" cd)))
        eqn:Hne.
      * split; [intros _|done]. right. by exists saved, cd.
      * split.
        -- intros H. by apply exchange_and_store_Raise in H.
        -- intros [[=]|(saved' & cd' & [= <-] & Hcd & Hne')].
           rewrite Hv in Hcd. injection Hcd as <-. congruence.
    + cbn. split; [discriminate|].
      intros [[=]|(saved' & cd' & [= <-] & Hcd & _)]. congruence.
  - cbn. split; [by left | done].
  - apply get_value_redis_Raise in Hget. split.
    + intros [= ->]. discriminate.
    + intros [[=]|(? & ? & [=] & _)].
Qed.

(** C4.  Once the state was accepted, the POST to the token endpoint and
    the deletion of the state entry have both happened when the callback
    ends, however it ends: the trace continues with the lookup, the POST
    and the deletion, before anything else; the state key is in neither dict; no later lookup
    finds it; and if the POST raised, the callback ends in that
    exception. *)
Theorem callback_state_consumed net t_get t_set request w s sd saved cd w1 :
  truthy (of_option (query_get (query_params request) "error")) = false →
  query_get (query_params request) "state" = Some s →
  json_loads s = Some (VDict sd) →
  let org_id := default VNone (dict_lookup "org_id" sd) in
  let user_id := default VNone (dict_lookup "user_id" sd) in
  let code := query_get (query_params request) "code" in
  get_value_redis t_get (state_key org_id user_id) w = (Ok (Some saved), w1) →
  saved ≠ EmptyString →
  json_loads saved = Some (VDict cd) →
  py_ne (default VNone (dict_lookup "state" sd))
    (default VNone (dict_lookup "state" cd)) = false →
  let r := fst (oauth2callback_hubspot net t_get t_set request w) in
  let w' := snd (oauth2callback_hubspot net t_get t_set request w) in
  (∃ rest,
     trace w'
     = trace w
       ++ [CacheGet (state_key org_id user_id);
           HttpPost token_url (token_request_data code);
           CacheDelete (state_key org_id user_id)] ++ rest)
  ∧ absent (state_key org_id user_id) w'
  ∧ (∀ t, fst (get_value_redis t (state_key org_id user_id) w') = Ok None)
  ∧ (∀ cls msg,
       client_post net token_url (token_request_data code)
         token_request_headers = Raised cls msg →
       r = Raise (PyExc cls msg))
  ∧ (∀ response cls msg,
       client_post net token_url (token_request_data code)
         token_request_headers = Returned response →
       json response = Raised cls msg →
       r = Raise (PyExc cls msg)).
Proof.
  intros Herr Hstate Hs org_id user_id code Hget Hsaved Hcd Hne r w'.
  subst r w'. rewrite (callback_stages _ _ _ _ _ _ _ Herr Hstate Hs).
  fold org_id user_id code. rewrite Hget.
  unfold state_mismatch. cbn [of_option truthy].
  apply String.eqb_neq in Hsaved. rewrite Hsaved.
  cbn [negb py_json_loads]. rewrite Hcd.
  cbn [mbind result_bind py_get]. rewrite Hne.
  split; [|split; [|split; [|split]]].
  - assert (∀ rest,
              trace w1
              ++ [HttpPost token_url (token_request_data code);
                  CacheDelete (state_key org_id user_id)] ++ rest
              = trace w
                ++ [CacheGet (state_key org_id user_id);
                    HttpPost token_url (token_request_data code);
                    CacheDelete (state_key org_id user_id)] ++ rest) as Htr.
    { intros rest. rewrite (get_value_redis_trace _ _ _ _ _ Hget).
      by rewrite <- app_assoc. }
    unfold exchange_and_store.
    destruct (client_post net _ _ _) as [response|cls msg];
      [|exists []; rewrite <- Htr; apply trace_after_exchange].
    destruct (json response) as [body|cls msg];
      [|exists []; rewrite <- Htr; apply trace_after_exchange].
    eexists [_]. rewrite <- Htr. cbn [snd add_key_value_redis trace].
    by rewrite trace_after_exchange, <- app_assoc.
  - apply absent_exchange_and_store.
  - intros t. rewrite get_value_redis_absent; [done|].
    apply absent_exchange_and_store.
  - intros cls msg Hpost. unfold exchange_and_store. by rewrite Hpost.
  - intros response cls msg Hpost Hjson. unfold exchange_and_store.
    by rewrite Hpost, Hjson.
Qed.

(** *** Authorize, then the callback *)

Lemma authorize_hubspot_run nonce t0 user_id org_id w :
  authorize_hubspot nonce t0 user_id org_id w
  = (Ok (authorization_url +:+ "&state="
         +:+ json_dumps (state_data_of nonce user_id org_id)),
     snd (add_key_value_redis t0 (state_key org_id user_id)
            (json_dumps (state_data_of nonce user_id org_id)) (Some 600) w)).
Proof. reflexivity. Qed.

(** The state [authorize_hubspot] stored matches itself. *)
Lemma state_mismatch_same nonce user_id org_id :
  serializable (state_data_of nonce user_id org_id) →
  state_mismatch (VStr nonce)
    (Some (json_dumps (state_data_of nonce user_id org_id)))
  = Ok false.
Proof.
  intros [Hne Hloads]. unfold state_mismatch. cbn [of_option truthy].
  apply String.eqb_neq in Hne. rewrite Hne. cbn [negb py_json_loads].
  rewrite Hloads. cbn. unfold py_ne. cbn. by rewrite String.eqb_refl.
Qed.

(** C3.  [authorize_hubspot] returns the authorization URL followed by
    [&state=] and the serialised state.  A callback that presents this
    very state, no later than 600 clock units after the authorization,
    does not end in [HTTPException(400, 'State does not match.')] (nor in
    any other [HTTPException]); and from the world that callback ends in,
    a callback presenting the same state again does end in it. *)
Theorem authorize_callback_round_trip nonce t0 user_id org_id w :
  let encoded_state := json_dumps (state_data_of nonce user_id org_id) in
  let w1 := snd (authorize_hubspot nonce t0 user_id org_id w) in
  serializable (state_data_of nonce user_id org_id) →
  fst (authorize_hubspot nonce t0 user_id org_id w)
  = Ok (authorization_url +:+ "&state=" +:+ encoded_state)
  ∧ ∀ net t_get t_set request,
      truthy (of_option (query_get (query_params request) "error")) = false →
      query_get (query_params request) "state" = Some encoded_state →
      t_get ≤ t0 + 600 →
      let r := fst (oauth2callback_hubspot net t_get t_set request w1) in
      let w2 := snd (oauth2callback_hubspot net t_get t_set request w1) in
      r ≠ Raise (HTTPException 400 "State does not match.")
      ∧ (∀ e, r = Raise e → is_HTTPException e = false)
      ∧ ∀ net' t_get' t_set' request',
          truthy (of_option (query_get (query_params request') "error"))
          = false →
          query_get (query_params request') "state" = Some encoded_state →
          fst (oauth2callback_hubspot net' t_get' t_set' request' w2)
          = Raise (HTTPException 400 "State does not match.").
Proof.
  intros encoded_state w1 Hser. split; [reflexivity|].
  pose proof Hser as [Hne Hloads].
  intros net t_get t_set request Herr Hstate Ht r w2.
  assert (oauth2callback_hubspot net t_get t_set request w1
          = exchange_and_store net t_set
              (query_get (query_params request) "code") org_id user_id
              (log (CacheGet (state_key org_id user_id)) w1)) as Hrun.
  { rewrite (callback_stages _ _ _ _ _ _ _ Herr Hstate Hloads).
    cbn [state_data_of dict_lookup String.eqb Ascii.eqb Bool.eqb default
           from_option id].
    subst w1. rewrite authorize_hubspot_run. cbn [snd].
    rewrite get_value_redis_fresh by (done || lia).
    by rewrite state_mismatch_same. }
  subst r w2. rewrite Hrun. split; [|split].
  - intros H. by apply exchange_and_store_Raise in H.
  - intros e. apply exchange_and_store_Raise.
  - intros net' t_get' t_set' request' Herr' Hstate'.
    rewrite (callback_stages _ _ _ _ _ _ _ Herr' Hstate' Hloads).
    cbn [state_data_of dict_lookup String.eqb Ascii.eqb Bool.eqb default
           from_option id].
    rewrite get_value_redis_absent by apply absent_exchange_and_store.
    reflexivity.
Qed.

(** *** Retrieving the credentials *)

(** A successful retrieval leaves nothing under the credentials key. *)
Lemma get_hubspot_credentials_Ok now user_id org_id w v w' :
  get_hubspot_credentials now user_id org_id w = (Ok v, w') →
  absent (credentials_key org_id user_id) w'.
Proof.
  unfold get_hubspot_credentials. unfold_monad.
  destruct (get_value_redis now (credentials_key org_id user_id) w)
    as [[credentials|e] w1]; [|by intros [= ]].
  destruct (negb (truthy (of_option credentials))); [by intros [= ]|].
  destruct (py_json_loads (of_option credentials)) as [parsed|e];
    [|by intros [= ]].
  destruct (negb (truthy parsed)); [by intros [= ]|].
  intros [= _ <-]. apply absent_delete.
Qed.

Lemma get_hubspot_credentials_absent now user_id org_id w :
  absent (credentials_key org_id user_id) w →
  fst (get_hubspot_credentials now user_id org_id w)
  = Raise (HTTPException 400 "No credentials found.").
Proof.
  intros Habs. unfold get_hubspot_credentials.
  erewrite bind_Ok by by apply get_value_redis_absent.
  reflexivity.
Qed.

(** What a retrieval finds right after a write of serialisable, non-empty
    credentials. *)
Lemma get_hubspot_credentials_fresh now t user_id org_id body w :
  serializable body → truthy body = true → now ≤ t + 600 →
  fst (get_hubspot_credentials now user_id org_id
         (snd (add_key_value_redis t (credentials_key org_id user_id)
                 (json_dumps body) (Some 600) w)))
  = Ok body.
Proof.
  intros [Hne Hloads] Htruthy Hnow. unfold get_hubspot_credentials.
  erewrite bind_Ok by (apply get_value_redis_fresh; (done || lia)).
  cbn [of_option truthy]. apply String.eqb_neq in Hne. rewrite Hne.
  cbn [negb py_json_loads]. rewrite Hloads, bind_lift_Ok, Htruthy.
  reflexivity.
Qed.

(** C1 (as amended).  When the callback has completed and the token
    response it stored is serialisable and not empty (truthy), a retrieval
    for the same [user_id] and [org_id] no later than 600 clock units
    after the write returns that response, parsed; a retrieval right
    after it ends in [HTTPException(400, 'No credentials found.')].  And
    from any world at all, a retrieval that succeeded is followed by one
    that fails that way: no entry is retrieved twice. *)
Theorem credentials_single_use net t_get t_set request w s sd response body :
  truthy (of_option (query_get (query_params request) "error")) = false →
  query_get (query_params request) "state" = Some s →
  json_loads s = Some (VDict sd) →
  let org_id := default VNone (dict_lookup "org_id" sd) in
  let user_id := default VNone (dict_lookup "user_id" sd) in
  let code := query_get (query_params request) "code" in
  fst (oauth2callback_hubspot net t_get t_set request w)
  = Ok (HTMLResponse_content close_window_script) →
  client_post net token_url (token_request_data code) token_request_headers
  = Returned response →
  json response = Returned body →
  serializable body →
  truthy body = true →
  let w1 := snd (oauth2callback_hubspot net t_get t_set request w) in
  (∀ now, now ≤ t_set + 600 →
     fst (get_hubspot_credentials now user_id org_id w1) = Ok body
     ∧ ∀ now',
         fst (get_hubspot_credentials now' user_id org_id
                (snd (get_hubspot_credentials now user_id org_id w1)))
         = Raise (HTTPException 400 "No credentials found."))
  ∧ (∀ w0 now u o v now',
       fst (get_hubspot_credentials now u o w0) = Ok v →
       fst (get_hubspot_credentials now' u o
              (snd (get_hubspot_credentials now u o w0)))
       = Raise (HTTPException 400 "No credentials found.")).
Proof.
  intros Herr Hstate Hs org_id user_id code Hdone Hpost Hjson Hser Htruthy w1.
  assert (∀ w0 now u o v now',
            fst (get_hubspot_credentials now u o w0) = Ok v →
            fst (get_hubspot_credentials now' u o
                   (snd (get_hubspot_credentials now u o w0)))
            = Raise (HTTPException 400 "No credentials found.")) as Honce.
  { intros w0 now u o v now' Hok.
    apply get_hubspot_credentials_absent.
    destruct (get_hubspot_credentials now u o w0) as [r w0'] eqn:Hrun.
    cbn [fst snd] in *. subst r.
    by eapply get_hubspot_credentials_Ok. }
  split; [|exact Honce].
  intros now Hnow.
  assert (fst (get_hubspot_credentials now user_id org_id w1) = Ok body)
    as Hfirst.
  { subst w1. revert Hdone.
    rewrite (callback_stages _ _ _ _ _ _ _ Herr Hstate Hs).
    fold org_id user_id code.
    destruct (get_value_redis t_get (state_key org_id user_id) w)
      as [[saved_state|e] w']; [|by intros [= ]].
    destruct (state_mismatch _ saved_state) as [[|]|e]; try by intros [= ].
    intros _. unfold exchange_and_store. rewrite Hpost, Hjson. cbn [snd].
    by apply get_hubspot_credentials_fresh. }
  split; [exact Hfirst|]. intros now'. by eapply Honce.
Qed.

(** *** The item fetcher *)

(** Past the token check, [get_items_hubspot] is the three requests in
    turn, each followed by the items of its response, with whatever is
    raised on the way wrapped by the [except] clause. *)
Lemma get_items_hubspot_run net s d access_token w :
  json_loads s = Some (VDict d) →
  dict_lookup "access_token" d = Some access_token →
  truthy access_token = true →
  let fetch url limit item : result (list IntegrationItem.t) :=
    response ←
      outcome_result
        (requests_get net url (bearer_headers access_token) [("limit", limit)]);
    items_of_response item response in
  fst (get_items_hubspot net (VStr s) w)
  = match
      contacts ←
        fetch "https://api.hubapi.com/crm/v3/objects/contacts" 100
          (fun contact =>
             create_integration_item_metadata_object contact "Contact");
      companies ←
        fetch "https://api.hubapi.com/crm/v3/objects/companies" 50
          company_item;
      deals ← fetch "https://api.hubapi.com/crm/v3/objects/deals" 50 deal_item;
      Ok (contacts ++ companies ++ deals)
    with
    | Ok items => Ok items
    | Raise e =>
        Raise (HTTPException 500 ("Error fetching HubSpot data: " +:+ exn_str e))
    end.
Proof.
  intros Hs Htok Htruthy fetch. subst fetch.
  unfold get_items_hubspot, py_json_loads. rewrite Hs, bind_lift_Ok.
  unfold py_get. rewrite Htok. cbn [default from_option id].
  rewrite bind_lift_Ok, Htruthy. cbn [negb].
  unfold try_except, get. unfold_monad.
  destruct (requests_get net _ _ [("limit", 100)]) as [r1|cls msg];
    [|reflexivity]. cbn [outcome_result].
  destruct (items_of_response _ r1) as [contacts|e]; [|reflexivity].
  destruct (requests_get net "https://api.hubapi.com/crm/v3/objects/companies"
              _ _) as [r2|cls msg];
    [|reflexivity]. cbn [outcome_result].
  destruct (items_of_response _ r2) as [companies|e]; [|reflexivity].
  destruct (requests_get net "https://api.hubapi.com/crm/v3/objects/deals"
              _ _) as [r3|cls msg];
    [|reflexivity]. cbn [outcome_result].
  destruct (items_of_response _ r3) as [deals|e]; [|reflexivity].
  cbn [fst app]. by rewrite app_assoc.
Qed.

(** The requests [get_items_hubspot] sends never end it in anything but
    an [HTTPException]: once the credentials have parsed to an object. *)
Lemma get_items_hubspot_Raise net s d w e :
  json_loads s = Some (VDict d) →
  fst (get_items_hubspot net (VStr s) w) = Raise e →
  is_HTTPException e = true.
Proof.
  intros Hs. unfold get_items_hubspot, py_json_loads.
  rewrite Hs, bind_lift_Ok. unfold py_get. rewrite bind_lift_Ok.
  destruct (negb (truthy _)); [by intros [= <-]|].
  unfold try_except.
  match goal with |- context [ (?body ≫= ?k) w ] =>
    destruct ((body ≫= k) w) as [[items|e'] w'] end.
  - by intros [= ].
  - by intros [= <-].
Qed.

(** A response whose status is not 200 gives no item, whatever its
    body. *)
Lemma items_of_response_skip item response :
  status_code response ≠ 200 → items_of_response item response = Ok [].
Proof.
  intros Hstatus. unfold items_of_response.
  by destruct (Z.eqb_spec (status_code response) 200).
Qed.

(** A 200 response whose body has a list under ['results'] gives the
    items of its records. *)
Lemma items_of_response_results item response data records :
  status_code response = 200 →
  json response = Returned (VDict data) →
  dict_lookup "results" data = Some (VList records) →
  items_of_response item response = rmap item records.
Proof.
  intros Hstatus Hjson Hresults. unfold items_of_response.
  rewrite Hstatus, Hjson. cbn. by rewrite Hresults.
Qed.

Lemma rmap_Raise_In {A B} (f : A → result B) l x e :
  x ∈ l → f x = Raise e → ∃ e', rmap f l = Raise e'.
Proof.
  intros Hin Hx. induction Hin as [x l|x y l Hin IH]; cbn.
  - rewrite Hx. by eexists.
  - destruct (f y) as [b|e']; [|by eexists]. cbn.
    destruct (IH Hx) as [e' ->]. by eexists.
Qed.

Lemma rmap_Forall2 {A B} (f : A → result B) l l' :
  Forall2 (λ x y, f x = Ok y) l l' → rmap f l = Ok l'.
Proof.
  induction 1 as [|x y l l' Hx _ IH]; cbn; [done|]. by rewrite Hx, IH.
Qed.

(** The projections of the three builders, field by field. *)
Lemma contact_item_Ok d p firstname lastname item_type :
  default (VDict []) (dict_lookup "properties" d) = VDict p →
  default (VStr EmptyString) (dict_lookup "firstname" p) = VStr firstname →
  default (VStr EmptyString) (dict_lookup "lastname" p) = VStr lastname →
  create_integration_item_metadata_object (VDict d) item_type
  = Ok (IntegrationItem.make (default VNone (dict_lookup "id" d)) item_type
          (VStr ((firstname +:+ " ") +:+ lastname))
          (default VNone (dict_lookup "createdAt" d))
          (default VNone (dict_lookup "updatedAt" d))
          ("https://app.hubspot.com/contacts/"
           +:+ py_str (default VNone (dict_lookup "id" d)))).
Proof.
  intros Hp Hfn Hln. unfold create_integration_item_metadata_object.
  cbn [py_get mbind result_bind]. rewrite Hp.
  cbn [py_get mbind result_bind]. by rewrite Hfn, Hln.
Qed.

Lemma company_item_Ok d p :
  default (VDict []) (dict_lookup "properties" d) = VDict p →
  company_item (VDict d)
  = Ok (IntegrationItem.make (default VNone (dict_lookup "id" d)) "Company"
          (default (VStr "Unnamed Company") (dict_lookup "name" p))
          (default VNone (dict_lookup "createdAt" d))
          (default VNone (dict_lookup "updatedAt" d))
          ("https://app.hubspot.com/contacts/"
           +:+ py_str (default VNone (dict_lookup "id" d)))).
Proof.
  intros Hp. unfold company_item. cbn [py_get mbind result_bind].
  by rewrite Hp.
Qed.

Lemma deal_item_Ok d p :
  default (VDict []) (dict_lookup "properties" d) = VDict p →
  deal_item (VDict d)
  = Ok (IntegrationItem.make (default VNone (dict_lookup "id" d)) "Deal"
          (default (VStr "Unnamed Deal") (dict_lookup "dealname" p))
          (default VNone (dict_lookup "createdAt" d))
          (default VNone (dict_lookup "updatedAt" d))
          ("https://app.hubspot.com/contacts/"
           +:+ py_str (default VNone (dict_lookup "id" d)))).
Proof.
  intros Hp. unfold deal_item. cbn [py_get mbind result_bind].
  by rewrite Hp.
Qed.

(** A first name that is given and is not a string: [None + ' '] and the
    like raise [TypeError]. *)
Lemma contact_item_bad_firstname d p v item_type :
  default (VDict []) (dict_lookup "properties" d) = VDict p →
  dict_lookup "firstname" p = Some v →
  (∀ t, v ≠ VStr t) →
  ∃ msg, create_integration_item_metadata_object (VDict d) item_type
         = Raise (PyExc "TypeError" msg).
Proof.
  intros Hp Hfn Hv. unfold create_integration_item_metadata_object.
  cbn [py_get mbind result_bind]. rewrite Hp.
  cbn [py_get mbind result_bind]. rewrite Hfn.
  cbn [default from_option id].
  destruct v as [|b|n|t|l|d']; try (by eexists).
  by destruct (Hv t).
Qed.

(** C10.  Whatever dictionary [get_hubspot_credentials] returns,
    [get_items_hubspot] given that dictionary ends in the [TypeError] of
    [json.loads] on a [dict], before the token check and before any
    request (the world is unchanged).  Given the dictionary serialised
    again, it gets past [json.loads]: it then ends well or in an
    [HTTPException]. *)
Theorem items_reject_parsed_credentials now user_id org_id w d w' :
  get_hubspot_credentials now user_id org_id w = (Ok (VDict d), w') →
  ∀ net w0,
    get_items_hubspot net (VDict d) w0
    = (Raise (PyExc "TypeError"
                "the JSON object must be str, bytes or bytearray, not dict"),
       w0)
    ∧ (serializable (VDict d) →
       ∀ e, fst (get_items_hubspot net (VStr (json_dumps (VDict d))) w0)
            = Raise e →
            is_HTTPException e = true).
Proof.
  intros _ net w0. split; [reflexivity|].
  intros [_ Hloads] e. by apply get_items_hubspot_Raise with (d := d).
Qed.

(** C5 (as amended).  With credentials that carry a token: a response
    whose status is not 200 gives no item and no exception, so with the
    companies endpoint answering anything but 200 the items of contacts
    and deals are returned; the result is the items of the three
    endpoints in order, one for each record.  What ends the operation is an exception raised
    inside the [try]: by a request, or by the reading of a 200 response,
    its body that does not decode or one of its records that the builder
    rejects (a first name that is not a string, for one).  The operation
    then ends in [HTTPException(500, 'Error fetching HubSpot data: ' + str(e))]
    for the first such exception [e], and it fails in no other case. *)
Theorem items_endpoint_tolerance net s d access_token w :
  json_loads s = Some (VDict d) →
  dict_lookup "access_token" d = Some access_token →
  truthy access_token = true →
  let request url limit :=
    requests_get net url (bearer_headers access_token) [("limit", limit)] in
  let contacts := request "https://api.hubapi.com/crm/v3/objects/contacts" 100 in
  let companies := request "https://api.hubapi.com/crm/v3/objects/companies" 50 in
  let deals := request "https://api.hubapi.com/crm/v3/objects/deals" 50 in
  let contact_item contact :=
    create_integration_item_metadata_object contact "Contact" in
  let r := fst (get_items_hubspot net (VStr s) w) in
  (∀ item response,
     status_code response ≠ 200 → items_of_response item response = Ok [])
  ∧ (∀ r1 r2 r3 a b c,
       contacts = Returned r1 → companies = Returned r2 → deals = Returned r3 →
       items_of_response contact_item r1 = Ok a →
       items_of_response company_item r2 = Ok b →
       items_of_response deal_item r3 = Ok c →
       r = Ok (a ++ b ++ c))
  ∧ (∀ r1 r2 r3 a c,
       contacts = Returned r1 → companies = Returned r2 → deals = Returned r3 →
       items_of_response contact_item r1 = Ok a →
       status_code r2 = 500 →
       items_of_response deal_item r3 = Ok c →
       r = Ok (a ++ c))
  ∧ (∀ cls msg,
       contacts = Raised cls msg →
       r = Raise (HTTPException 500 ("Error fetching HubSpot data: " +:+ msg)))
  ∧ (∀ r1 a cls msg,
       contacts = Returned r1 → items_of_response contact_item r1 = Ok a →
       companies = Raised cls msg →
       r = Raise (HTTPException 500 ("Error fetching HubSpot data: " +:+ msg)))
  ∧ (∀ r1 r2 a b cls msg,
       contacts = Returned r1 → items_of_response contact_item r1 = Ok a →
       companies = Returned r2 → items_of_response company_item r2 = Ok b →
       deals = Raised cls msg →
       r = Raise (HTTPException 500 ("Error fetching HubSpot data: " +:+ msg)))
  ∧ (∀ e, r = Raise e →
       ∃ cause, e = HTTPException 500
                      ("Error fetching HubSpot data: " +:+ exn_str cause))
  ∧ (let fetch (o : outcome Response) item : result (list IntegrationItem.t) :=
       response ← outcome_result o; items_of_response item response in
     (∀ e,
        r = Raise e
        ↔ ∃ cause,
            e = HTTPException 500
                  ("Error fetching HubSpot data: " +:+ exn_str cause)
            ∧ (fetch contacts contact_item = Raise cause
               ∨ (∃ a, fetch contacts contact_item = Ok a
                       ∧ fetch companies company_item = Raise cause)
               ∨ (∃ a b, fetch contacts contact_item = Ok a
                         ∧ fetch companies company_item = Ok b
                         ∧ fetch deals deal_item = Raise cause)))
     ∧ (∀ o item cause,
          fetch o item = Raise cause
          ↔ (∃ cls msg, o = Raised cls msg ∧ cause = PyExc cls msg)
            ∨ (∃ response,
                 o = Returned response
                 ∧ status_code response = 200
                 ∧ items_of_response item response = Raise cause)))
  ∧ (∀ response cls msg,
       contacts = Returned response →
       status_code response = 200 →
       json response = Raised cls msg →
       r = Raise (HTTPException 500 ("Error fetching HubSpot data: " +:+ msg)))
  ∧ (∀ response data records record e0,
       contacts = Returned response →
       status_code response = 200 →
       json response = Returned (VDict data) →
       dict_lookup "results" data = Some (VList records) →
       record ∈ records →
       contact_item record = Raise e0 →
       ∃ cause,
         r = Raise (HTTPException 500
                      ("Error fetching HubSpot data: " +:+ exn_str cause)))
  ∧ (∀ d0 p v,
       default (VDict []) (dict_lookup "properties" d0) = VDict p →
       dict_lookup "firstname" p = Some v →
       (∀ t, v ≠ VStr t) →
       ∃ msg, contact_item (VDict d0) = Raise (PyExc "TypeError" msg))
  ∧ (∀ r2 dc pc firstname lastname dd pd,
       let answer results :=
         Returned {| status_code := 200;
                     json := Returned (VDict [("results", VList results)]) |} in
       contacts = answer [VDict dc] →
       companies = Returned r2 →
       status_code r2 ≠ 200 →
       deals = answer [VDict dd] →
       default (VDict []) (dict_lookup "properties" dc) = VDict pc →
       default (VStr EmptyString) (dict_lookup "firstname" pc)
       = VStr firstname →
       default (VStr EmptyString) (dict_lookup "lastname" pc) = VStr lastname →
       default (VDict []) (dict_lookup "properties" dd) = VDict pd →
       r = Ok [IntegrationItem.make (default VNone (dict_lookup "id" dc))
                 "Contact" (VStr ((firstname +:+ " ") +:+ lastname))
                 (default VNone (dict_lookup "createdAt" dc))
                 (default VNone (dict_lookup "updatedAt" dc))
                 ("https://app.hubspot.com/contacts/"
                  +:+ py_str (default VNone (dict_lookup "id" dc)));
               IntegrationItem.make (default VNone (dict_lookup "id" dd))
                 "Deal"
                 (default (VStr "Unnamed Deal") (dict_lookup "dealname" pd))
                 (default VNone (dict_lookup "createdAt" dd))
                 (default VNone (dict_lookup "updatedAt" dd))
                 ("https://app.hubspot.com/contacts/"
                  +:+ py_str (default VNone (dict_lookup "id" dd)))])
  ∧ (∀ r2 cs ds a c,
       let answer results :=
         Returned {| status_code := 200;
                     json := Returned (VDict [("results", VList results)]) |} in
       contacts = answer cs →
       companies = Returned r2 →
       status_code r2 ≠ 200 →
       deals = answer ds →
       Forall2 (λ record it, contact_item record = Ok it) cs a →
       Forall2 (λ record it, deal_item record = Ok it) ds c →
       r = Ok (a ++ c)).
Proof.
  intros Hs Htok Htruthy request contacts companies deals contact_item r.
  assert (∀ item response,
            status_code response ≠ 200 → items_of_response item response = Ok [])
    as Hskip.
  { intros item response Hstatus. unfold items_of_response.
    by destruct (Z.eqb_spec (status_code response) 200). }
  subst r. rewrite (get_items_hubspot_run _ _ _ _ _ Hs Htok Htruthy).
  fold (request "https://api.hubapi.com/crm/v3/objects/contacts" 100).
  fold (request "https://api.hubapi.com/crm/v3/objects/companies" 50).
  fold (request "https://api.hubapi.com/crm/v3/objects/deals" 50).
  fold contacts companies deals. fold contact_item.
  split; [exact Hskip|].
  split.
  { intros r1 r2 r3 a b c -> -> -> Ha Hb Hc. cbn. by rewrite Ha, Hb, Hc. }
  split.
  { intros r1 r2 r3 a c -> -> -> Ha H500 Hc. cbn.
    rewrite Ha, Hc, (Hskip company_item r2) by (rewrite H500; done).
    reflexivity. }
  split; [by intros cls msg ->|].
  split.
  { intros r1 a cls msg -> Ha ->. cbn. by rewrite Ha. }
  split.
  { intros r1 r2 a b cls msg -> Ha -> Hb ->. cbn. by rewrite Ha, Hb. }
  split.
  { intros e.
    match goal with |- match ?x with _ => _ end = _ → _ =>
      destruct x as [items|cause] end.
    - by intros [= ].
    - intros [= <-]. by exists cause. }
  split.
  { intros fetch. split.
    - intros e.
      match goal with |- _ ↔ ?rhs =>
        change (match
                  (a ← fetch contacts contact_item;
                   b ← fetch companies company_item;
                   c ← fetch deals deal_item;
                   Ok (a ++ b ++ c))
                with
                | Ok items => Ok items
                | Raise e0 =>
                    Raise (HTTPException 500
                             ("Error fetching HubSpot data: " +:+ exn_str e0))
                end = Raise e ↔ rhs)
      end.
      destruct (fetch contacts contact_item) as [a|c1];
        [destruct (fetch companies company_item) as [b|c2];
         [destruct (fetch deals deal_item) as [c|c3]|]|]; cbn.
      + split; [by intros [= ]|].
        intros (cause & _ & [[= ]|[(? & _ & [= ])|(? & ? & _ & _ & [= ])]]).
      + split.
        * intros [= <-]. exists c3. split; [done|]. right. right.
          by exists a, b.
        * intros (cause & -> & [[= ]|[(? & _ & [= ])|(? & ? & _ & _ & [= ->])]]).
          done.
      + split.
        * intros [= <-]. exists c2. split; [done|]. right. left. by exists a.
        * intros (cause & -> & [[= ]|[(? & _ & [= ->])|(? & ? & _ & [= ] & _)]]).
          done.
      + split.
        * intros [= <-]. exists c1. split; [done|]. by left.
        * intros (cause & -> & [[= ->]|[(? & [= ] & _)|(? & ? & [= ] & _)]]).
          done.
    - intros o item cause. subst fetch. cbn beta.
      destruct o as [response|cls msg]; cbn [outcome_result mbind result_bind].
      + split.
        * intros Hraise. right. exists response. split; [done|].
          split; [|done].
          destruct (Z.eq_dec (status_code response) 200) as [|Hne]; [done|].
          by rewrite (Hskip item response Hne) in Hraise.
        * intros [(? & ? & [= ] & _)|(response' & [= <-] & _ & Hraise)]. done.
      + split.
        * intros [= <-]. left. by exists cls, msg.
        * intros [(? & ? & [= <- <-] & ->)|(? & [= ] & _)]. done. }
  split.
  { intros response cls msg -> Hstatus Hjson. cbn.
    unfold items_of_response. rewrite Hstatus, Hjson. reflexivity. }
  split.
  { intros response data records record e0 -> Hstatus Hjson Hresults Hin Hbad.
    cbn [outcome_result mbind result_bind].
    rewrite (items_of_response_results _ _ _ _ Hstatus Hjson Hresults).
    destruct (rmap_Raise_In contact_item records record e0 Hin Hbad)
      as [cause ->].
    by exists cause. }
  split.
  { intros d0 p v. apply contact_item_bad_firstname. }
  split.
  2:{ intros r2 cs ds a c answer -> -> Hstatus -> Ha Hc.
      subst answer. cbn [outcome_result mbind result_bind].
      rewrite (Hskip company_item r2 Hstatus).
      rewrite (items_of_response_results contact_item
                 {| status_code := 200;
                    json := Returned (VDict [("results", VList cs)]) |}
                 [("results", VList cs)] cs eq_refl eq_refl eq_refl).
      rewrite (items_of_response_results deal_item
                 {| status_code := 200;
                    json := Returned (VDict [("results", VList ds)]) |}
                 [("results", VList ds)] ds eq_refl eq_refl eq_refl).
      by rewrite (rmap_Forall2 _ _ _ Ha), (rmap_Forall2 _ _ _ Hc). }
  intros r2 dc pc firstname lastname dd pd answer -> -> Hstatus -> Hpc Hfn Hln
    Hpd.
  subst answer. cbn [outcome_result mbind result_bind].
  rewrite (Hskip company_item r2 Hstatus).
  rewrite (items_of_response_results contact_item
             {| status_code := 200;
                json := Returned (VDict [("results", VList [VDict dc])]) |}
             [("results", VList [VDict dc])] [VDict dc] eq_refl eq_refl eq_refl).
  rewrite (items_of_response_results deal_item
             {| status_code := 200;
                json := Returned (VDict [("results", VList [VDict dd])]) |}
             [("results", VList [VDict dd])] [VDict dd] eq_refl eq_refl eq_refl).
  cbn [rmap]. subst contact_item. cbn beta.
  rewrite (contact_item_Ok _ _ _ _ _ Hpc Hfn Hln), (deal_item_Ok _ _ Hpd).
  reflexivity.
Qed.

(** *** Normalisation *)

(** C6.  Each record is projected by the builder of its type.  A contact
    becomes the item with its id, type [Contact], the first and last
    names joined by a space (a missing name counting as the empty
    string), its two times and the URL
    [https://app.hubspot.com/contacts/<id>]; a company, the item with its
    id, type [Company], the [name] of its [properties], its two times and
    the same URL pattern, and a deal likewise with type [Deal] and
    [dealname]; a company without [properties], or whose [properties]
    have no [name], gets the name ['Unnamed Company'], and likewise a
    deal without [dealname] gets ['Unnamed Deal'].  [get_items_hubspot]
    applies the contact builder to the records of the contacts response,
    the company builder to those of companies and the deal builder to
    those of deals, to every record and in order; with the example record as the only contact and no
    company and no deal, it returns exactly the item
    [{id: '1', type: 'Contact', name: 'A B', creation_time: 't1',
      last_modified_time: 't2', url: 'https://app.hubspot.com/contacts/1'}]. *)
Theorem normalization_projection :
  (∀ d p firstname lastname,
     dict_lookup "properties" d = Some (VDict p) →
     dict_lookup "firstname" p = Some (VStr firstname) →
     dict_lookup "lastname" p = Some (VStr lastname) →
     create_integration_item_metadata_object (VDict d) "Contact"
     = Ok (IntegrationItem.make
             (default VNone (dict_lookup "id" d)) "Contact"
             (VStr ((firstname +:+ " ") +:+ lastname))
             (default VNone (dict_lookup "createdAt" d))
             (default VNone (dict_lookup "updatedAt" d))
             ("https://app.hubspot.com/contacts/"
              +:+ py_str (default VNone (dict_lookup "id" d)))))
  ∧ (∀ net s d access_token w,
       json_loads s = Some (VDict d) →
       dict_lookup "access_token" d = Some access_token →
       truthy access_token = true →
       let answer results :=
         Returned {| status_code := 200;
                     json := Returned (VDict [("results", VList results)]) |} in
       requests_get net "https://api.hubapi.com/crm/v3/objects/contacts"
         (bearer_headers access_token) [("limit", 100)]
       = answer [example_contact] →
       requests_get net "https://api.hubapi.com/crm/v3/objects/companies"
         (bearer_headers access_token) [("limit", 50)]
       = answer [] →
       requests_get net "https://api.hubapi.com/crm/v3/objects/deals"
         (bearer_headers access_token) [("limit", 50)]
       = answer [] →
       fst (get_items_hubspot net (VStr s) w)
       = Ok [IntegrationItem.make (VStr "1") "Contact" (VStr "A B")
               (VStr "t1") (VStr "t2") "https://app.hubspot.com/contacts/1"])
  ∧ (∀ d,
       dict_lookup "properties" d = None
       ∨ (∃ p, dict_lookup "properties" d = Some (VDict p)
               ∧ dict_lookup "name" p = None) →
       ∃ item, company_item (VDict d) = Ok item
               ∧ IntegrationItem.type item = "Company"
               ∧ IntegrationItem.name item = VStr "Unnamed Company")
  ∧ (∀ d,
       dict_lookup "properties" d = None
       ∨ (∃ p, dict_lookup "properties" d = Some (VDict p)
               ∧ dict_lookup "dealname" p = None) →
       ∃ item, deal_item (VDict d) = Ok item
               ∧ IntegrationItem.type item = "Deal"
               ∧ IntegrationItem.name item = VStr "Unnamed Deal")
  ∧ (∀ d p firstname lastname,
       default (VDict []) (dict_lookup "properties" d) = VDict p →
       default (VStr EmptyString) (dict_lookup "firstname" p)
       = VStr firstname →
       default (VStr EmptyString) (dict_lookup "lastname" p) = VStr lastname →
       create_integration_item_metadata_object (VDict d) "Contact"
       = Ok (IntegrationItem.make
               (default VNone (dict_lookup "id" d)) "Contact"
               (VStr ((firstname +:+ " ") +:+ lastname))
               (default VNone (dict_lookup "createdAt" d))
               (default VNone (dict_lookup "updatedAt" d))
               ("https://app.hubspot.com/contacts/"
                +:+ py_str (default VNone (dict_lookup "id" d)))))
  ∧ (∀ d p,
       default (VDict []) (dict_lookup "properties" d) = VDict p →
       company_item (VDict d)
       = Ok (IntegrationItem.make
               (default VNone (dict_lookup "id" d)) "Company"
               (default (VStr "Unnamed Company") (dict_lookup "name" p))
               (default VNone (dict_lookup "createdAt" d))
               (default VNone (dict_lookup "updatedAt" d))
               ("https://app.hubspot.com/contacts/"
                +:+ py_str (default VNone (dict_lookup "id" d)))))
  ∧ (∀ d p,
       default (VDict []) (dict_lookup "properties" d) = VDict p →
       deal_item (VDict d)
       = Ok (IntegrationItem.make
               (default VNone (dict_lookup "id" d)) "Deal"
               (default (VStr "Unnamed Deal") (dict_lookup "dealname" p))
               (default VNone (dict_lookup "createdAt" d))
               (default VNone (dict_lookup "updatedAt" d))
               ("https://app.hubspot.com/contacts/"
                +:+ py_str (default VNone (dict_lookup "id" d)))))
  ∧ (∀ net s d access_token w dc pc firstname lastname dco pco dd pd,
       json_loads s = Some (VDict d) →
       dict_lookup "access_token" d = Some access_token →
       truthy access_token = true →
       let answer results :=
         Returned {| status_code := 200;
                     json := Returned (VDict [("results", VList results)]) |} in
       requests_get net "https://api.hubapi.com/crm/v3/objects/contacts"
         (bearer_headers access_token) [("limit", 100)]
       = answer [VDict dc] →
       requests_get net "https://api.hubapi.com/crm/v3/objects/companies"
         (bearer_headers access_token) [("limit", 50)]
       = answer [VDict dco] →
       requests_get net "https://api.hubapi.com/crm/v3/objects/deals"
         (bearer_headers access_token) [("limit", 50)]
       = answer [VDict dd] →
       default (VDict []) (dict_lookup "properties" dc) = VDict pc →
       default (VStr EmptyString) (dict_lookup "firstname" pc)
       = VStr firstname →
       default (VStr EmptyString) (dict_lookup "lastname" pc) = VStr lastname →
       default (VDict []) (dict_lookup "properties" dco) = VDict pco →
       default (VDict []) (dict_lookup "properties" dd) = VDict pd →
       fst (get_items_hubspot net (VStr s) w)
       = Ok [IntegrationItem.make (default VNone (dict_lookup "id" dc))
               "Contact" (VStr ((firstname +:+ " ") +:+ lastname))
               (default VNone (dict_lookup "createdAt" dc))
               (default VNone (dict_lookup "updatedAt" dc))
               ("https://app.hubspot.com/contacts/"
                +:+ py_str (default VNone (dict_lookup "id" dc)));
             IntegrationItem.make (default VNone (dict_lookup "id" dco))
               "Company"
               (default (VStr "Unnamed Company") (dict_lookup "name" pco))
               (default VNone (dict_lookup "createdAt" dco))
               (default VNone (dict_lookup "updatedAt" dco))
               ("https://app.hubspot.com/contacts/"
                +:+ py_str (default VNone (dict_lookup "id" dco)));
             IntegrationItem.make (default VNone (dict_lookup "id" dd))
               "Deal"
               (default (VStr "Unnamed Deal") (dict_lookup "dealname" pd))
               (default VNone (dict_lookup "createdAt" dd))
               (default VNone (dict_lookup "updatedAt" dd))
               ("https://app.hubspot.com/contacts/"
                +:+ py_str (default VNone (dict_lookup "id" dd)))])
  ∧ (∀ net s d access_token w cs cos ds a b c,
       json_loads s = Some (VDict d) →
       dict_lookup "access_token" d = Some access_token →
       truthy access_token = true →
       let answer results :=
         Returned {| status_code := 200;
                     json := Returned (VDict [("results", VList results)]) |} in
       requests_get net "https://api.hubapi.com/crm/v3/objects/contacts"
         (bearer_headers access_token) [("limit", 100)]
       = answer cs →
       requests_get net "https://api.hubapi.com/crm/v3/objects/companies"
         (bearer_headers access_token) [("limit", 50)]
       = answer cos →
       requests_get net "https://api.hubapi.com/crm/v3/objects/deals"
         (bearer_headers access_token) [("limit", 50)]
       = answer ds →
       Forall2
         (λ record it,
            create_integration_item_metadata_object record "Contact" = Ok it)
         cs a →
       Forall2 (λ record it, company_item record = Ok it) cos b →
       Forall2 (λ record it, deal_item record = Ok it) ds c →
       fst (get_items_hubspot net (VStr s) w) = Ok (a ++ b ++ c)).
Proof.
  split; [|split; [|split; [|split; [|split; [|split; [|split; [|split]]]]]]].
  - intros d p firstname lastname Hp Hfn Hln.
    unfold create_integration_item_metadata_object, py_get.
    rewrite Hp. cbn [mbind result_bind default from_option id].
    rewrite Hfn, Hln. reflexivity.
  - intros net s d access_token w Hs Htok Htruthy answer Hc Hco Hd.
    rewrite (get_items_hubspot_run _ _ _ _ _ Hs Htok Htruthy).
    rewrite Hc, Hco, Hd. reflexivity.
  - intros d [Hp|(p & Hp & Hn)]; unfold company_item, py_get;
      rewrite Hp; cbn [mbind result_bind default from_option id dict_lookup];
      [|rewrite Hn]; eexists; (split; [reflexivity|]); split; reflexivity.
  - intros d [Hp|(p & Hp & Hn)]; unfold deal_item, py_get;
      rewrite Hp; cbn [mbind result_bind default from_option id dict_lookup];
      [|rewrite Hn]; eexists; (split; [reflexivity|]); split; reflexivity.
  - intros d p firstname lastname. apply contact_item_Ok.
  - intros d p. apply company_item_Ok.
  - intros d p. apply deal_item_Ok.
  - intros net s d access_token w dc pc firstname lastname dco pco dd pd
      Hs Htok Htruthy answer Hc Hco Hd Hpc Hfn Hln Hpco Hpd.
    rewrite (get_items_hubspot_run _ _ _ _ _ Hs Htok Htruthy).
    rewrite Hc, Hco, Hd. subst answer.
    cbn [outcome_result mbind result_bind].
    rewrite (items_of_response_results
               (λ contact,
                  create_integration_item_metadata_object contact "Contact")
               {| status_code := 200;
                  json := Returned (VDict [("results", VList [VDict dc])]) |}
               [("results", VList [VDict dc])] [VDict dc]
               eq_refl eq_refl eq_refl).
    rewrite (items_of_response_results company_item
               {| status_code := 200;
                  json := Returned (VDict [("results", VList [VDict dco])]) |}
               [("results", VList [VDict dco])] [VDict dco]
               eq_refl eq_refl eq_refl).
    rewrite (items_of_response_results deal_item
               {| status_code := 200;
                  json := Returned (VDict [("results", VList [VDict dd])]) |}
               [("results", VList [VDict dd])] [VDict dd]
               eq_refl eq_refl eq_refl).
    cbn [rmap].
    rewrite (contact_item_Ok _ _ _ _ _ Hpc Hfn Hln), (company_item_Ok _ _ Hpco),
      (deal_item_Ok _ _ Hpd).
    reflexivity.
  - intros net s d access_token w cs cos ds a b c Hs Htok Htruthy answer
      Hc Hco Hd Ha Hb Hcc.
    rewrite (get_items_hubspot_run _ _ _ _ _ Hs Htok Htruthy).
    rewrite Hc, Hco, Hd. subst answer.
    cbn [outcome_result mbind result_bind].
    rewrite (items_of_response_results
               (λ contact,
                  create_integration_item_metadata_object contact "Contact")
               {| status_code := 200;
                  json := Returned (VDict [("results", VList cs)]) |}
               [("results", VList cs)] cs eq_refl eq_refl eq_refl).
    rewrite (items_of_response_results company_item
               {| status_code := 200;
                  json := Returned (VDict [("results", VList cos)]) |}
               [("results", VList cos)] cos eq_refl eq_refl eq_refl).
    rewrite (items_of_response_results deal_item
               {| status_code := 200;
                  json := Returned (VDict [("results", VList ds)]) |}
               [("results", VList ds)] ds eq_refl eq_refl eq_refl).
    by rewrite (rmap_Forall2 _ _ _ Ha), (rmap_Forall2 _ _ _ Hb),
      (rmap_Forall2 _ _ _ Hcc).
Qed.

(** *** The store stays consistent

    From a consistent store [get_value_redis] never raises its
    [KeyError], and every handler ends in a consistent store. *)

Lemma get_value_redis_no_KeyError now key w :
  store_ok w → ∃ o, fst (get_value_redis now key w) = Ok o.
Proof.
  intros Hok. unfold get_value_redis.
  cbn [log _memory_expiry _memory_storage].
  destruct (_memory_expiry w !! key) as [deadline|] eqn:He; [|by eexists].
  destruct (now >? deadline); [|by eexists].
  destruct (Hok key) as [v Hv]; [by eexists|]. rewrite Hv. by eexists.
Qed.

Lemma store_ok_log ev w : store_ok w → store_ok (log ev w).
Proof. done. Qed.

Lemma store_ok_empty : store_ok empty_world.
Proof. intros k [d Hd]. cbn in Hd. by rewrite lookup_empty in Hd. Qed.

Create HintDb preserves.

Lemma preserves_ret {A} (a : A) : preserves (mret a).
Proof. by intros w. Qed.

Lemma preserves_raise {A} e : preserves (raise (A := A) e).
Proof. by intros w. Qed.

Lemma preserves_lift {A} (r : result A) : preserves (lift r).
Proof. by intros w. Qed.

Lemma preserves_bind {A B} (m : M A) (k : A → M B) :
  preserves m → (∀ a, preserves (k a)) → preserves (m ≫= k).
Proof.
  intros Hm Hk w Hok. specialize (Hm w Hok).
  unfold mbind, M_bind. destruct (m w) as [[a|e] w']; [|done].
  by apply Hk.
Qed.

Lemma preserves_try_except {A} (body : M A) handler :
  preserves body → (∀ e, preserves (handler e)) →
  preserves (try_except body handler).
Proof.
  intros Hm Hh w Hok. specialize (Hm w Hok).
  unfold try_except. destruct (body w) as [[a|e] w']; [done|].
  by apply Hh.
Qed.

Lemma preserves_asyncio_gather {A B} (a : M A) (b : M B) :
  preserves a → preserves b → preserves (asyncio_gather a b).
Proof.
  intros Ha Hb w Hok. specialize (Ha w Hok). unfold asyncio_gather.
  destruct (a w) as [ra w1]. specialize (Hb w1 Ha).
  destruct (b w1) as [rb w2]. by destruct ra, rb.
Qed.

Lemma preserves_add_key_value_redis now key v expire :
  preserves (add_key_value_redis now key v expire).
Proof.
  intros w Hok k. cbn. intros Hk.
  destruct (decide (key = k)) as [->|Hne].
  - rewrite lookup_insert_eq. by eexists.
  - rewrite lookup_insert_ne by done. apply Hok.
    destruct expire as [e|]; [|done].
    destruct (e =? 0); [done|]. by rewrite lookup_insert_ne in Hk.
Qed.

Lemma preserves_delete_key_redis key : preserves (delete_key_redis key).
Proof.
  intros w Hok k. cbn. intros Hk.
  destruct (decide (key = k)) as [->|Hne].
  - rewrite lookup_delete_eq in Hk. by destruct Hk.
  - rewrite lookup_delete_ne in Hk by done.
    rewrite lookup_delete_ne by done. by apply Hok.
Qed.

Lemma preserves_get_value_redis now key : preserves (get_value_redis now key).
Proof.
  intros w Hok. unfold get_value_redis.
  cbn [log _memory_expiry _memory_storage].
  destruct (_memory_expiry w !! key) as [deadline|]; [|done].
  destruct (now >? deadline); [|done].
  destruct (_memory_storage w !! key); [|done].
  apply (preserves_delete_key_redis key (log (CacheGet key) w)).
  by apply store_ok_log.
Qed.

Lemma preserves_post net url data headers : preserves (post net url data headers).
Proof. by intros w. Qed.

Lemma preserves_get net url headers params :
  preserves (get net url headers params).
Proof. by intros w. Qed.

#[local] Hint Resolve preserves_ret preserves_raise preserves_lift
  preserves_try_except preserves_asyncio_gather preserves_add_key_value_redis
  preserves_delete_key_redis preserves_get_value_redis preserves_post
  preserves_get : preserves.

Ltac preserves_step :=
  match goal with
  | |- preserves (_ ≫= _) => apply preserves_bind; [|intros ?]
  | |- preserves (if ?b then _ else _) => destruct b
  | |- preserves (let _ := _ in _) => cbv zeta
  | |- preserves _ => solve [auto with preserves]
  | |- ∀ _, preserves _ => intros ?
  end.

Lemma preserves_authorize_hubspot nonce now user_id org_id :
  preserves (authorize_hubspot nonce now user_id org_id).
Proof. unfold authorize_hubspot. repeat preserves_step. Qed.

Lemma preserves_oauth2callback_hubspot net t_get t_set request :
  preserves (oauth2callback_hubspot net t_get t_set request).
Proof. unfold oauth2callback_hubspot. repeat preserves_step. Qed.

Lemma preserves_get_hubspot_credentials now user_id org_id :
  preserves (get_hubspot_credentials now user_id org_id).
Proof. unfold get_hubspot_credentials. repeat preserves_step. Qed.

Lemma preserves_get_items_hubspot net credentials :
  preserves (get_items_hubspot net credentials).
Proof.
  unfold get_items_hubspot. repeat preserves_step.
  apply preserves_try_except; repeat preserves_step.
Qed.

End Properties.

(** ** The properties on the reference library *)

Section Examples.
#[local] Existing Instance Reference.lib.

Lemma example_state_serializable : serializable example_state.
Proof. split; by vm_compute. Qed.

Lemma example_credentials_serializable : serializable example_credentials.
Proof. split; by vm_compute. Qed.

(** The callback of the example cycle completes. *)
Lemma example_callback_completes :
  fst (oauth2callback_hubspot (token_endpoint 200 example_credentials)
         1001 1002 example_callback authorized)
  = Ok (HTMLResponse_content close_window_script).
Proof. by vm_compute. Qed.

(** After the example cycle, the first retrieval returns the token
    response and the second finds nothing. *)
Lemma credentials_single_use_witness :
  fst (get_hubspot_credentials 1003 (VStr "u1") (VStr "o1") called_back)
  = Ok example_credentials
  ∧ fst (get_hubspot_credentials 1004 (VStr "u1") (VStr "o1")
           (snd (get_hubspot_credentials 1003 (VStr "u1") (VStr "o1")
                   called_back)))
    = Raise (HTTPException 400 "No credentials found.").
Proof.
  destruct (credentials_single_use
              (token_endpoint 200 example_credentials) 1001 1002
              example_callback authorized example_encoded_state
              [("state", VStr "n0nce"); ("user_id", VStr "u1");
               ("org_id", VStr "o1")]
              {| status_code := 200; json := Returned example_credentials |}
              example_credentials) as [H _].
  - reflexivity.
  - reflexivity.
  - by vm_compute.
  - exact example_callback_completes.
  - reflexivity.
  - reflexivity.
  - exact example_credentials_serializable.
  - reflexivity.
  - destruct (H 1003 ltac:(lia)) as [H1 H2]. split; [exact H1 | exact (H2 1004)].
Defined.

(** A token endpoint that answers with the empty object: the callback
    completes and stores it, and the first retrieval already fails, the
    entry staying in the store.  And credentials that are not empty are
    gone for a retrieval later than 600 clock units after the write. *)
Lemma credentials_single_use_counterexample :
  let w := snd (oauth2callback_hubspot (token_endpoint 200 (VDict []))
                  1001 1002 example_callback authorized) in
  fst (oauth2callback_hubspot (token_endpoint 200 (VDict []))
         1001 1002 example_callback authorized)
  = Ok (HTMLResponse_content close_window_script)
  ∧ _memory_storage w !! "hubspot_credentials:o1:u1" = Some "{}"
  ∧ fst (get_hubspot_credentials 1003 (VStr "u1") (VStr "o1") w)
    = Raise (HTTPException 400 "No credentials found.")
  ∧ _memory_storage
      (snd (get_hubspot_credentials 1003 (VStr "u1") (VStr "o1") w))
    !! "hubspot_credentials:o1:u1" = Some "{}"
  ∧ fst (get_hubspot_credentials 1603 (VStr "u1") (VStr "o1") called_back)
    = Raise (HTTPException 400 "No credentials found.").
Proof. by vm_compute. Qed.

(** A forged nonce for the same user and organisation is rejected. *)
Lemma callback_state_mismatch_iff_witness :
  fst (oauth2callback_hubspot (token_endpoint 200 example_credentials)
         1001 1002
         {| query_params :=
              [("code", "c0");
               ("state",
                json_dumps (state_data_of "forged" (VStr "u1") (VStr "o1")))] |}
         authorized)
  = Raise (HTTPException 400 "State does not match.").
Proof.
  apply (callback_state_mismatch_iff _ _ _ _ _
           (json_dumps (state_data_of "forged" (VStr "u1") (VStr "o1")))
           [("state", VStr "forged"); ("user_id", VStr "u1");
            ("org_id", VStr "o1")]).
  - reflexivity.
  - reflexivity.
  - by vm_compute.
  - intros saved H. vm_compute in H. injection H as <-. discriminate.
  - right. exists example_encoded_state,
      [("state", VStr "n0nce"); ("user_id", VStr "u1"); ("org_id", VStr "o1")].
    split; [by vm_compute|]. split; by vm_compute.
Defined.

(** The example cycle: the callback passes the check, and the same state
    presented again is rejected. *)
Lemma authorize_callback_round_trip_witness :
  fst (oauth2callback_hubspot (token_endpoint 200 example_credentials)
         1001 1002 example_callback authorized)
  ≠ Raise (HTTPException 400 "State does not match.")
  ∧ fst (oauth2callback_hubspot (token_endpoint 200 example_credentials)
           1005 1006 example_callback called_back)
    = Raise (HTTPException 400 "State does not match.").
Proof.
  destruct (authorize_callback_round_trip "n0nce" 1000 (VStr "u1") (VStr "o1")
              empty_world example_state_serializable) as [_ H].
  destruct (H (token_endpoint 200 example_credentials) 1001 1002
              example_callback eq_refl eq_refl ltac:(lia)) as (H1 & _ & H2).
  split; [exact H1|].
  exact (H2 (token_endpoint 200 example_credentials) 1005 1006
           example_callback eq_refl eq_refl).
Defined.

(** The example callback with the token endpoint unreachable: it ends in
    the connection error, and the state entry is gone all the same. *)
Lemma callback_state_consumed_witness :
  let w' := snd (oauth2callback_hubspot offline 1001 1002 example_callback
                   authorized) in
  fst (oauth2callback_hubspot offline 1001 1002 example_callback authorized)
  = Raise (PyExc "ConnectError" "All connection attempts failed")
  ∧ absent "hubspot_state:o1:u1" w'
  ∧ fst (get_value_redis 1001 "hubspot_state:o1:u1" w') = Ok None.
Proof.
  destruct (callback_state_consumed offline 1001 1002 example_callback
              authorized example_encoded_state
              [("state", VStr "n0nce"); ("user_id", VStr "u1");
               ("org_id", VStr "o1")]
              example_encoded_state
              [("state", VStr "n0nce"); ("user_id", VStr "u1");
               ("org_id", VStr "o1")]
              (log (CacheGet "hubspot_state:o1:u1") authorized))
    as (_ & Habs & Hget & Hpost & _).
  - reflexivity.
  - reflexivity.
  - by vm_compute.
  - by vm_compute.
  - discriminate.
  - by vm_compute.
  - reflexivity.
  - split; [|split].
    + exact (Hpost "ConnectError" "All connection attempts failed" eq_refl).
    + exact Habs.
    + exact (Hget 1001).
Defined.

(** Contacts answers with the example record, companies with HTTP 500,
    deals with a record without a name. *)
Lemma items_endpoint_tolerance_witness :
  fst (get_items_hubspot
         (crm (results_response 200 [example_contact])
            (results_response 500 []) (results_response 200 [example_deal]))
         (VStr (json_dumps example_credentials)) empty_world)
  = Ok [IntegrationItem.make (VStr "1") "Contact" (VStr "A B") (VStr "t1")
          (VStr "t2") "https://app.hubspot.com/contacts/1";
        IntegrationItem.make (VStr "7") "Deal" (VStr "Unnamed Deal") (VStr "t3")
          (VStr "t4") "https://app.hubspot.com/contacts/7"].
Proof.
  destruct (items_endpoint_tolerance
              (crm (results_response 200 [example_contact])
                 (results_response 500 [])
                 (results_response 200 [example_deal]))
              (json_dumps example_credentials)
              [("access_token", VStr "tok"); ("expires_in", VInt 1800)]
              (VStr "tok") empty_world)
    as (_ & _ & H & _).
  - by vm_compute.
  - reflexivity.
  - reflexivity.
  - exact (H _ _ _ _ _ eq_refl eq_refl eq_refl eq_refl eq_refl eq_refl).
Defined.

(** Every endpoint answers 200 and no request raises, and the
    operation fails all the same: once on a contact whose first name is
    [null], once on a body that does not decode. *)
Lemma items_endpoint_tolerance_counterexample :
  let unnamed :=
    VDict [("id", VStr "2");
           ("properties", VDict [("firstname", VNone); ("lastname", VStr "C")]);
           ("createdAt", VStr "t5");
           ("updatedAt", VStr "t6")] in
  let undecodable :=
    Returned {| status_code := 200;
                json := Raised "JSONDecodeError"
                          "Expecting value: line 1 column 1 (char 0)" |} in
  let net1 :=
    crm (results_response 200 [example_contact; unnamed])
      (results_response 200 []) (results_response 200 [example_deal]) in
  let net2 :=
    crm undecodable (results_response 200 []) (results_response 200 []) in
  (∀ url headers params,
     (∃ response, requests_get net1 url headers params = Returned response
                  ∧ status_code response = 200)
     ∧ (∃ response, requests_get net2 url headers params = Returned response
                    ∧ status_code response = 200))
  ∧ fst (get_items_hubspot net1 (VStr (json_dumps example_credentials))
           empty_world)
    = Raise (HTTPException 500
               "Error fetching HubSpot data: unsupported operand type(s) for +: 'NoneType' and 'str'")
  ∧ fst (get_items_hubspot net2 (VStr (json_dumps example_credentials))
           empty_world)
    = Raise (HTTPException 500
               "Error fetching HubSpot data: Expecting value: line 1 column 1 (char 0)").
Proof.
  intros unnamed undecodable net1 net2. split; [|split; by vm_compute].
  intros url headers params. subst net1 net2. cbn [requests_get crm].
  destruct (String.eqb url "https://api.hubapi.com/crm/v3/objects/contacts");
    [split; by eexists|].
  destruct (String.eqb url "https://api.hubapi.com/crm/v3/objects/companies");
    split; by eexists.
Qed.

(** The example of the specification, a company without a name, and a
    fetch that finds one contact, one company and one deal. *)
Lemma normalization_projection_witness :
  fst (get_items_hubspot
         (crm (results_response 200 [example_contact])
            (results_response 200 []) (results_response 200 []))
         (VStr (json_dumps example_credentials)) empty_world)
  = Ok [IntegrationItem.make (VStr "1") "Contact" (VStr "A B") (VStr "t1")
          (VStr "t2") "https://app.hubspot.com/contacts/1"]
  ∧ (∃ item,
       company_item (VDict [("id", VStr "9"); ("properties", VDict [])]) = Ok item
       ∧ IntegrationItem.type item = "Company"
       ∧ IntegrationItem.name item = VStr "Unnamed Company")
  ∧ fst (get_items_hubspot
           (crm (results_response 200 [example_contact])
              (results_response 200 [example_company])
              (results_response 200 [example_deal]))
           (VStr (json_dumps example_credentials)) empty_world)
    = Ok [IntegrationItem.make (VStr "1") "Contact" (VStr "A B") (VStr "t1")
            (VStr "t2") "https://app.hubspot.com/contacts/1";
          IntegrationItem.make (VStr "5") "Company" (VStr "Acme") (VStr "t7")
            (VStr "t8") "https://app.hubspot.com/contacts/5";
          IntegrationItem.make (VStr "7") "Deal" (VStr "Unnamed Deal")
            (VStr "t3") (VStr "t4") "https://app.hubspot.com/contacts/7"].
Proof.
  destruct normalization_projection
    as (_ & Hexample & Hcompany & _ & _ & _ & _ & Hfetch & _).
  split; [|split].
  - apply (Hexample
             (crm (results_response 200 [example_contact])
                (results_response 200 []) (results_response 200 []))
             (json_dumps example_credentials)
             [("access_token", VStr "tok"); ("expires_in", VInt 1800)]
             (VStr "tok") empty_world).
    + by vm_compute.
    + reflexivity.
    + reflexivity.
    + reflexivity.
    + reflexivity.
    + reflexivity.
  - apply Hcompany. right. exists []. split; reflexivity.
  - apply (Hfetch
             (crm (results_response 200 [example_contact])
                (results_response 200 [example_company])
                (results_response 200 [example_deal]))
             (json_dumps example_credentials)
             [("access_token", VStr "tok"); ("expires_in", VInt 1800)]
             (VStr "tok") empty_world
             [("id", VStr "1");
              ("properties",
               VDict [("firstname", VStr "A"); ("lastname", VStr "B")]);
              ("createdAt", VStr "t1"); ("updatedAt", VStr "t2")]
             [("firstname", VStr "A"); ("lastname", VStr "B")] "A" "B"
             [("id", VStr "5"); ("properties", VDict [("name", VStr "Acme")]);
              ("createdAt", VStr "t7"); ("updatedAt", VStr "t8")]
             [("name", VStr "Acme")]
             [("id", VStr "7"); ("properties", VDict [("amount", VStr "10")]);
              ("createdAt", VStr "t3"); ("updatedAt", VStr "t4")]
             [("amount", VStr "10")]).
    + by vm_compute.
    + reflexivity.
    + reflexivity.
    + reflexivity.
    + reflexivity.
    + reflexivity.
    + reflexivity.
    + reflexivity.
    + reflexivity.
    + reflexivity.
    + reflexivity.
Defined.

(** Credentials that are the empty object. *)
Lemma items_missing_token_witness :
  get_items_hubspot offline (VStr "{}") empty_world
  = (Raise (HTTPException 400 "No access token found in credentials."),
     empty_world).
Proof. apply (items_missing_token offline "{}" []); [by vm_compute | reflexivity]. Defined.

(** A provider error. *)
Lemma callback_provider_error_witness :
  oauth2callback_hubspot offline 1001 1002
    {| query_params := [("error", "access_denied")] |} authorized
  = (Raise (HTTPException 400 "access_denied"), authorized).
Proof. apply callback_provider_error; [reflexivity | discriminate]. Defined.

(** An [error] parameter that is present and empty: the callback goes on,
    completes, and has consumed the state and stored the credentials. *)
Lemma callback_provider_error_counterexample :
  let request :=
    {| query_params :=
         [("error", EmptyString); ("code", "c0");
          ("state", example_encoded_state)] |} in
  let run :=
    oauth2callback_hubspot (token_endpoint 200 example_credentials) 1001 1002
      request authorized in
  query_get (query_params request) "error" = Some EmptyString
  ∧ fst run = Ok (HTMLResponse_content close_window_script)
  ∧ _memory_storage authorized !! "hubspot_state:o1:u1"
    = Some example_encoded_state
  ∧ _memory_storage (snd run) !! "hubspot_state:o1:u1" = None
  ∧ _memory_storage (snd run) !! "hubspot_credentials:o1:u1"
    = Some (json_dumps example_credentials).
Proof. by vm_compute. Qed.

(** A callback without a [state]. *)
Lemma callback_malformed_state_witness :
  oauth2callback_hubspot offline 1001 1002
    {| query_params := [("code", "c0")] |} authorized
  = (Raise (PyExc "TypeError"
              "the JSON object must be str, bytes or bytearray, not NoneType"),
     authorized).
Proof.
  destruct (callback_malformed_state offline 1001 1002
              {| query_params := [("code", "c0")] |} authorized) as (H & _).
  - reflexivity.
  - apply H. reflexivity.
Defined.

(** No [state], a [state] that is not JSON, a [state] that is JSON but
    not an object: each ends the callback in an exception that is not an
    [HTTPException].  The empty object as [state] is not told apart from a
    state that does not match. *)
Lemma callback_malformed_state_counterexample :
  let run params :=
    fst (oauth2callback_hubspot offline 1001 1002
           {| query_params := params |} authorized) in
  run [("code", "c0")]
  = Raise (PyExc "TypeError"
             "the JSON object must be str, bytes or bytearray, not NoneType")
  ∧ run [("code", "c0"); ("state", "not json")]
    = Raise (PyExc "JSONDecodeError" "Expecting value: line 1 column 1 (char 0)")
  ∧ run [("code", "c0"); ("state", "[1]")]
    = Raise (PyExc "AttributeError" "'list' object has no attribute 'get'")
  ∧ run [("code", "c0"); ("state", "{}")]
    = Raise (HTTPException 400 "State does not match.")
  ∧ run [("code", "c0"); ("state", example_encoded_state)]
    = Raise (PyExc "ConnectError" "All connection attempts failed").
Proof. by vm_compute. Qed.

(** The dictionary retrieved after the example cycle, handed to the
    fetcher as it is. *)
Lemma items_reject_parsed_credentials_witness :
  get_items_hubspot offline example_credentials empty_world
  = (Raise (PyExc "TypeError"
              "the JSON object must be str, bytes or bytearray, not dict"),
     empty_world).
Proof.
  apply (items_reject_parsed_credentials 1003 (VStr "u1") (VStr "o1")
           called_back
           [("access_token", VStr "tok"); ("expires_in", VInt 1800)]
           (snd (get_hubspot_credentials 1003 (VStr "u1") (VStr "o1")
                   called_back))).
  rewrite (surjective_pairing (get_hubspot_credentials _ _ _ _)) at 1.
  f_equal.
Defined.

End Examples.

(** ** Further properties: the store of redis_client.py *)

Section Store.
Context {lib : PyLib}.

(** X1.  A value written with a time to live [e] at clock [t] is what a
    lookup returns up to and including clock [t + e], and is not returned
    after it, whatever the store held under the key before. *)
Theorem store_set_then_get now t e key v w :
  e ≠ 0 →
  fst (get_value_redis now key (snd (add_key_value_redis t key v (Some e) w)))
  = Ok (if now >? t + e then None else Some v).
Proof.
  intros He. unfold get_value_redis, add_key_value_redis.
  cbn [snd log _memory_expiry _memory_storage].
  destruct (Z.eqb_spec e 0) as [|_]; [done|].
  rewrite lookup_insert_eq.
  destruct (now >? t + e); by rewrite lookup_insert_eq.
Qed.

(** X2.  A lookup that finds the deadline passed removes the key from
    both dicts: every later lookup, at whatever clock reading, even an
    earlier one, finds nothing. *)
Theorem store_expired_purged now key w d v :
  _memory_expiry w !! key = Some d →
  _memory_storage w !! key = Some v →
  now > d →
  fst (get_value_redis now key w) = Ok None
  ∧ absent key (snd (get_value_redis now key w))
  ∧ ∀ now', fst (get_value_redis now' key (snd (get_value_redis now key w)))
            = Ok None.
Proof.
  intros Hd Hv Hnow.
  assert (get_value_redis now key w
          = (Ok None,
             {| _memory_storage := delete key (_memory_storage w);
                _memory_expiry := delete key (_memory_expiry w);
                trace := trace w ++ [CacheGet key] |})) as Hrun.
  { unfold get_value_redis. cbn [log _memory_expiry _memory_storage trace].
    rewrite Hd, Hv. destruct (Z.gtb_spec now d); [done | lia]. }
  rewrite Hrun. cbn [fst snd].
  assert (absent key
            {| _memory_storage := delete key (_memory_storage w);
               _memory_expiry := delete key (_memory_expiry w);
               trace := trace w ++ [CacheGet key] |}) as Habs.
  { split; apply lookup_delete_eq. }
  split; [done|]. split; [done|].
  intros now'. by rewrite get_value_redis_absent.
Qed.

(** X3.  A write without a time to live ([expire] absent or zero) leaves
    the deadline of the key as it was.  With no deadline the value is
    returned at every clock reading; with an earlier deadline that has
    passed, the value just written is not returned. *)
Theorem store_set_without_expire now t key v expire w :
  expire = None ∨ expire = Some 0 →
  let w' := snd (add_key_value_redis t key v expire w) in
  _memory_expiry w' = _memory_expiry w
  ∧ (_memory_expiry w !! key = None →
     fst (get_value_redis now key w') = Ok (Some v))
  ∧ (∀ d, _memory_expiry w !! key = Some d → now > d →
          fst (get_value_redis now key w') = Ok None).
Proof.
  intros Hexp w'.
  assert (_memory_expiry w' = _memory_expiry w) as He.
  { subst w'. by destruct Hexp as [-> | ->]. }
  assert (_memory_storage w' !! key = Some v) as Hv.
  { subst w'. cbn. apply lookup_insert_eq. }
  split; [done|]. unfold get_value_redis.
  cbn [log _memory_expiry _memory_storage]. rewrite He, Hv. split.
  - by intros ->.
  - intros d -> Hnow. by destruct (Z.gtb_spec now d); [|lia].
Qed.

(** X4.  After a deletion a lookup of the key finds nothing, at every
    clock reading; deleting a key that is not there changes neither dict,
    so that a second deletion is without effect. *)
Theorem store_delete_then_get now key w :
  fst (get_value_redis now key (snd (delete_key_redis key w))) = Ok None
  ∧ (absent key w →
     _memory_storage (snd (delete_key_redis key w)) = _memory_storage w
     ∧ _memory_expiry (snd (delete_key_redis key w)) = _memory_expiry w)
  ∧ _memory_storage (snd (delete_key_redis key (snd (delete_key_redis key w))))
    = _memory_storage (snd (delete_key_redis key w))
  ∧ _memory_expiry (snd (delete_key_redis key (snd (delete_key_redis key w))))
    = _memory_expiry (snd (delete_key_redis key w)).
Proof.
  split; [|split; [|split]].
  - rewrite get_value_redis_absent; [done | apply absent_delete].
  - intros [Hs He]. cbn. by rewrite !delete_id.
  - cbn. apply delete_id, lookup_delete_eq.
  - cbn. apply delete_id, lookup_delete_eq.
Qed.

(** What a lookup returns depends on the two entries of its key only. *)
Lemma get_value_redis_same_at now k w w' :
  same_at k w w' →
  fst (get_value_redis now k w') = fst (get_value_redis now k w).
Proof.
  intros [Hs He]. unfold get_value_redis.
  cbn [log _memory_expiry _memory_storage]. rewrite Hs, He.
  destruct (_memory_expiry w !! k) as [d|]; [|done].
  destruct (now >? d); [|done].
  by destruct (_memory_storage w !! k).
Qed.

Lemma same_at_refl k w : same_at k w w.
Proof. done. Qed.

Lemma same_at_trans k w1 w2 w3 :
  same_at k w1 w2 → same_at k w2 w3 → same_at k w1 w3.
Proof. intros [??] [??]. split; congruence. Qed.

Lemma leaves_add_key_value_redis k now key v expire :
  k ≠ key → leaves k (add_key_value_redis now key v expire).
Proof.
  intros Hne w. split; cbn.
  - by rewrite lookup_insert_ne.
  - destruct expire as [e|]; [|done].
    destruct (e =? 0); [done|]. by rewrite lookup_insert_ne.
Qed.

Lemma leaves_delete_key_redis k key :
  k ≠ key → leaves k (delete_key_redis key).
Proof. intros Hne w. split; cbn; by rewrite lookup_delete_ne. Qed.

Lemma leaves_get_value_redis k now key :
  k ≠ key → leaves k (get_value_redis now key).
Proof.
  intros Hne w. unfold get_value_redis.
  cbn [log _memory_expiry _memory_storage].
  destruct (_memory_expiry w !! key) as [d|]; [|done].
  destruct (now >? d); [|done].
  destruct (_memory_storage w !! key); [|done].
  split; cbn; by rewrite lookup_delete_ne.
Qed.

(** X5.  The three functions act on their own key: a write, a lookup or
    a deletion under [key] changes nothing of what a lookup under another
    key returns, at any clock reading. *)
Theorem store_other_keys now k t key v expire w :
  k ≠ key →
  fst (get_value_redis now k (snd (add_key_value_redis t key v expire w)))
  = fst (get_value_redis now k w)
  ∧ fst (get_value_redis now k (snd (get_value_redis t key w)))
    = fst (get_value_redis now k w)
  ∧ fst (get_value_redis now k (snd (delete_key_redis key w)))
    = fst (get_value_redis now k w).
Proof.
  intros Hne. split; [|split]; apply get_value_redis_same_at.
  - by apply leaves_add_key_value_redis.
  - by apply leaves_get_value_redis.
  - by apply leaves_delete_key_redis.
Qed.

(** X6.  In every world the process can reach from the empty store,
    whatever was called and in whatever order, each key with a deadline
    has a value, and no lookup raises: the [KeyError] of
    [del _memory_storage[key]] cannot happen. *)
Theorem reachable_store_ok w :
  reachable w →
  store_ok w ∧ ∀ now key, ∃ o, fst (get_value_redis now key w) = Ok o.
Proof.
  intros Hreach.
  assert (store_ok w) as Hok.
  { induction Hreach.
    - apply store_ok_empty.
    - by apply preserves_add_key_value_redis.
    - by apply preserves_get_value_redis.
    - by apply preserves_delete_key_redis.
    - by apply preserves_authorize_hubspot.
    - by apply preserves_oauth2callback_hubspot.
    - by apply preserves_get_hubspot_credentials.
    - by apply preserves_get_items_hubspot. }
  split; [done|]. intros now key. by apply get_value_redis_no_KeyError.
Qed.

Lemma get_value_redis_live now key w v :
  _memory_storage w !! key = Some v →
  (∀ d, _memory_expiry w !! key = Some d → now ≤ d) →
  get_value_redis now key w = (Ok (Some v), log (CacheGet key) w).
Proof.
  intros Hv Hd. unfold get_value_redis.
  cbn [log _memory_expiry _memory_storage].
  destruct (_memory_expiry w !! key) as [d|]; [|by rewrite Hv].
  specialize (Hd d eq_refl).
  destruct (Z.gtb_spec now d); [lia | by rewrite Hv].
Qed.

Lemma get_value_redis_expired now key w d v :
  _memory_expiry w !! key = Some d →
  _memory_storage w !! key = Some v →
  now > d →
  get_value_redis now key w
  = (Ok None,
     {| _memory_storage := delete key (_memory_storage w);
        _memory_expiry := delete key (_memory_expiry w);
        trace := trace w ++ [CacheGet key] |}).
Proof.
  intros Hd Hv Hnow. unfold get_value_redis.
  cbn [log _memory_expiry _memory_storage trace].
  rewrite Hd, Hv. destruct (Z.gtb_spec now d); [done | lia].
Qed.

(** X7.  A lookup raises exactly when its key has a deadline that has
    passed and no value; what it raises then is [KeyError], and both
    dicts are left as they were. *)
Theorem get_value_redis_raises_iff now key w :
  ((∃ e, fst (get_value_redis now key w) = Raise e)
   ↔ (∃ d, _memory_expiry w !! key = Some d ∧ now > d)
     ∧ _memory_storage w !! key = None)
  ∧ (∀ e, fst (get_value_redis now key w) = Raise e →
          get_value_redis now key w
          = (Raise (PyExc "KeyError" (py_repr (VStr key))),
             log (CacheGet key) w)).
Proof.
  unfold get_value_redis. cbn [log _memory_expiry _memory_storage].
  destruct (_memory_expiry w !! key) as [d|].
  - destruct (Z.gtb_spec now d) as [Hgt|Hle].
    + destruct (_memory_storage w !! key) as [v|].
      * split; [|by intros e [=]].
        split; [by intros [e [=]] | by intros [_ [=]]].
      * split; [|done].
        split; [intros _ | by eexists].
        split; [|done]. exists d. split; [done|lia].
    + split; [|by intros e [=]].
      split; [by intros [e [=]]|]. intros [(d' & [= <-] & Hgt) _]. lia.
  - split; [|by intros e [=]].
    split; [by intros [e [=]] | by intros [(d & [=] & _) _]].
Qed.

(** X24.  A lookup changes the store in one case only: when the deadline
    of its key has passed, it removes that key from both dicts.  In every
    other case both dicts are what they were. *)
Theorem lookup_only_purges now key w :
  let w' := snd (get_value_redis now key w) in
  (_memory_storage w' = _memory_storage w
   ∧ _memory_expiry w' = _memory_expiry w)
  ∨ (∃ d, _memory_expiry w !! key = Some d ∧ now > d
          ∧ _memory_storage w' = delete key (_memory_storage w)
          ∧ _memory_expiry w' = delete key (_memory_expiry w)).
Proof.
  unfold get_value_redis. cbn [log _memory_expiry _memory_storage].
  destruct (_memory_expiry w !! key) as [d|] eqn:Hd; [|by left].
  destruct (Z.gtb_spec now d) as [Hgt|Hle]; [|by left].
  destruct (_memory_storage w !! key); [|by left].
  right. exists d. split; [done|]. split; [lia|]. done.
Qed.

End Store.

(** ** Further properties: the OAuth flow of hubspot.py *)

Section Flow.
Context {lib : PyLib}.

#[local] Arguments state_key : simpl never.
#[local] Arguments credentials_key : simpl never.

(** The callback of a request whose state is an object, when the store
    holds a live entry under its key: the lookup is a read, and the state
    check decides. *)
Lemma callback_on_live_entry net t_get t_set request w s sd saved :
  truthy (of_option (query_get (query_params request) "error")) = false →
  query_get (query_params request) "state" = Some s →
  json_loads s = Some (VDict sd) →
  let org_id := default VNone (dict_lookup "org_id" sd) in
  let user_id := default VNone (dict_lookup "user_id" sd) in
  _memory_storage w !! state_key org_id user_id = Some saved →
  (∀ d, _memory_expiry w !! state_key org_id user_id = Some d → t_get ≤ d) →
  oauth2callback_hubspot net t_get t_set request w
  = match state_mismatch (default VNone (dict_lookup "state" sd)) (Some saved) with
    | Raise e => (Raise e, log (CacheGet (state_key org_id user_id)) w)
    | Ok true =>
        (Raise (HTTPException 400 "State does not match."),
         log (CacheGet (state_key org_id user_id)) w)
    | Ok false =>
        exchange_and_store net t_set (query_get (query_params request) "code")
          org_id user_id (log (CacheGet (state_key org_id user_id)) w)
    end.
Proof.
  intros Herr Hstate Hs org_id user_id Hsaved Hlive.
  rewrite (callback_stages _ _ _ _ _ _ _ Herr Hstate Hs).
  fold org_id user_id. by rewrite (get_value_redis_live _ _ _ _ Hsaved Hlive).
Qed.

(** A stored state with another nonce is a mismatch. *)
Lemma state_mismatch_other nonce nonce' user_id org_id :
  serializable (state_data_of nonce' user_id org_id) →
  nonce ≠ nonce' →
  state_mismatch (VStr nonce)
    (Some (json_dumps (state_data_of nonce' user_id org_id)))
  = Ok true.
Proof.
  intros [Hne Hloads] Hdiff. unfold state_mismatch. cbn [of_option truthy].
  apply String.eqb_neq in Hne. rewrite Hne. cbn [negb py_json_loads].
  rewrite Hloads. cbn. unfold py_ne. cbn.
  apply String.eqb_neq in Hdiff. by rewrite Hdiff.
Qed.

(** What [authorize_hubspot] leaves under the state key. *)
Lemma authorize_hubspot_entry nonce t0 user_id org_id w :
  let w1 := snd (authorize_hubspot nonce t0 user_id org_id w) in
  _memory_storage w1 !! state_key org_id user_id
  = Some (json_dumps (state_data_of nonce user_id org_id))
  ∧ _memory_expiry w1 !! state_key org_id user_id = Some (t0 + 600).
Proof. split; cbn; apply lookup_insert_eq. Qed.

Lemma dict_lookup_state_data nonce user_id org_id :
  dict_lookup "state" [("state", VStr nonce); ("user_id", user_id);
                       ("org_id", org_id)] = Some (VStr nonce)
  ∧ dict_lookup "user_id" [("state", VStr nonce); ("user_id", user_id);
                           ("org_id", org_id)] = Some user_id
  ∧ dict_lookup "org_id" [("state", VStr nonce); ("user_id", user_id);
                          ("org_id", org_id)] = Some org_id.
Proof. done. Qed.

(** X8.  Of two authorizations for the same user and organisation, the
    later one replaces the earlier: a callback presenting the first state
    is rejected with [HTTPException(400, 'State does not match.')], one
    presenting the second state, before its deadline, is not. *)
Theorem authorize_twice_last_wins nonce1 nonce2 t1 t2 user_id org_id w :
  serializable (state_data_of nonce1 user_id org_id) →
  serializable (state_data_of nonce2 user_id org_id) →
  nonce1 ≠ nonce2 →
  let w2 :=
    snd (authorize_hubspot nonce2 t2 user_id org_id
           (snd (authorize_hubspot nonce1 t1 user_id org_id w))) in
  ∀ net t_get t_set request,
    truthy (of_option (query_get (query_params request) "error")) = false →
    t_get ≤ t2 + 600 →
    (query_get (query_params request) "state"
     = Some (json_dumps (state_data_of nonce1 user_id org_id)) →
     fst (oauth2callback_hubspot net t_get t_set request w2)
     = Raise (HTTPException 400 "State does not match."))
    ∧ (query_get (query_params request) "state"
       = Some (json_dumps (state_data_of nonce2 user_id org_id)) →
       ∀ e, fst (oauth2callback_hubspot net t_get t_set request w2) = Raise e →
            is_HTTPException e = false).
Proof.
  intros Hser1 Hser2 Hdiff w2 net t_get t_set request Herr Ht.
  destruct (authorize_hubspot_entry nonce2 t2 user_id org_id
              (snd (authorize_hubspot nonce1 t1 user_id org_id w)))
    as [Hsaved Hdeadline].
  fold w2 in Hsaved, Hdeadline.
  split; intros Hstate.
  - rewrite (callback_on_live_entry _ _ _ _ _ _ _ _ Herr Hstate (proj2 Hser1)
               Hsaved).
    + cbn [state_data_of dict_lookup String.eqb Ascii.eqb Bool.eqb default
             from_option id].
      by rewrite state_mismatch_other.
    + intros d Hd. pose proof (eq_trans (eq_sym Hd) Hdeadline) as [= ->]. done.
  - rewrite (callback_on_live_entry _ _ _ _ _ _ _ _ Herr Hstate (proj2 Hser2)
               Hsaved).
    + cbn [state_data_of dict_lookup String.eqb Ascii.eqb Bool.eqb default
             from_option id].
      rewrite state_mismatch_same by done.
      intros e. apply exchange_and_store_Raise.
    + intros d Hd. pose proof (eq_trans (eq_sym Hd) Hdeadline) as [= ->]. done.
Qed.

(** The callback that presents the state of an authorization, before its
    deadline, goes on to the exchange. *)
Lemma callback_after_authorize nonce t0 user_id org_id w net t_get t_set request :
  serializable (state_data_of nonce user_id org_id) →
  truthy (of_option (query_get (query_params request) "error")) = false →
  query_get (query_params request) "state"
  = Some (json_dumps (state_data_of nonce user_id org_id)) →
  t_get ≤ t0 + 600 →
  let w1 := snd (authorize_hubspot nonce t0 user_id org_id w) in
  oauth2callback_hubspot net t_get t_set request w1
  = exchange_and_store net t_set (query_get (query_params request) "code")
      org_id user_id (log (CacheGet (state_key org_id user_id)) w1).
Proof.
  intros Hser Herr Hstate Ht w1.
  destruct (authorize_hubspot_entry nonce t0 user_id org_id w)
    as [Hsaved Hdeadline].
  fold w1 in Hsaved, Hdeadline.
  rewrite (callback_on_live_entry _ _ _ _ _ _ _ _ Herr Hstate (proj2 Hser)
             Hsaved).
  - cbn [state_data_of dict_lookup String.eqb Ascii.eqb Bool.eqb default
           from_option id].
    by rewrite state_mismatch_same.
  - intros d Hd. pose proof (eq_trans (eq_sym Hd) Hdeadline) as [= ->]. done.
Qed.

(** X10.  The callback does not look at the status of the token
    endpoint's answer.  After an authorization, a callback presenting its
    state completes whatever the status, as long as the body is JSON: the
    body is stored under the credentials key with a deadline 600 after
    the write, and the state entry is gone. *)
Theorem callback_ignores_status nonce t0 user_id org_id w net t_get t_set
    request status body :
  serializable (state_data_of nonce user_id org_id) →
  truthy (of_option (query_get (query_params request) "error")) = false →
  query_get (query_params request) "state"
  = Some (json_dumps (state_data_of nonce user_id org_id)) →
  t_get ≤ t0 + 600 →
  client_post net token_url
    (token_request_data (query_get (query_params request) "code"))
    token_request_headers
  = Returned {| status_code := status; json := Returned body |} →
  let run :=
    oauth2callback_hubspot net t_get t_set request
      (snd (authorize_hubspot nonce t0 user_id org_id w)) in
  fst run = Ok (HTMLResponse_content close_window_script)
  ∧ _memory_storage (snd run) !! credentials_key org_id user_id
    = Some (json_dumps body)
  ∧ _memory_expiry (snd run) !! credentials_key org_id user_id
    = Some (t_set + 600)
  ∧ absent (state_key org_id user_id) (snd run).
Proof.
  intros Hser Herr Hstate Ht Hpost run. subst run.
  rewrite (callback_after_authorize _ _ _ _ _ _ _ _ _ Hser Herr Hstate Ht).
  split; [|split; [|split]]; [| | |apply absent_exchange_and_store];
    unfold exchange_and_store; rewrite Hpost; cbn [json fst snd];
    [done | |]; cbn; apply lookup_insert_eq.
Qed.

(** X11.  A rejected callback does not use the state up.  After an
    authorization, a callback that presents another nonce for the same
    user and organisation is rejected having done nothing but the lookup;
    the callback with the genuine state, before the deadline, is then
    still accepted. *)
Theorem callback_mismatch_keeps_state nonce forged t0 user_id org_id w :
  serializable (state_data_of nonce user_id org_id) →
  serializable (state_data_of forged user_id org_id) →
  forged ≠ nonce →
  let w1 := snd (authorize_hubspot nonce t0 user_id org_id w) in
  ∀ net t_get t_set request,
    truthy (of_option (query_get (query_params request) "error")) = false →
    query_get (query_params request) "state"
    = Some (json_dumps (state_data_of forged user_id org_id)) →
    t_get ≤ t0 + 600 →
    oauth2callback_hubspot net t_get t_set request w1
    = (Raise (HTTPException 400 "State does not match."),
       log (CacheGet (state_key org_id user_id)) w1)
    ∧ ∀ net' t_get' t_set' request',
        truthy (of_option (query_get (query_params request') "error")) = false →
        query_get (query_params request') "state"
        = Some (json_dumps (state_data_of nonce user_id org_id)) →
        t_get' ≤ t0 + 600 →
        ∀ e, fst (oauth2callback_hubspot net' t_get' t_set' request'
                    (log (CacheGet (state_key org_id user_id)) w1)) = Raise e →
             is_HTTPException e = false.
Proof.
  intros Hser Hforged Hdiff w1 net t_get t_set request Herr Hstate Ht.
  destruct (authorize_hubspot_entry nonce t0 user_id org_id w)
    as [Hsaved Hdeadline].
  fold w1 in Hsaved, Hdeadline.
  split.
  - rewrite (callback_on_live_entry _ _ _ _ _ _ _ _ Herr Hstate (proj2 Hforged)
               Hsaved).
    + cbn [state_data_of dict_lookup String.eqb Ascii.eqb Bool.eqb default
             from_option id].
      by rewrite state_mismatch_other.
    + intros d Hd. pose proof (eq_trans (eq_sym Hd) Hdeadline) as [= ->]. done.
  - intros net' t_get' t_set' request' Herr' Hstate' Ht' e.
    rewrite (callback_on_live_entry _ _ _ _
               (log (CacheGet (state_key org_id user_id)) w1) _ _ _
               Herr' Hstate' (proj2 Hser) Hsaved).
    + cbn [state_data_of dict_lookup String.eqb Ascii.eqb Bool.eqb default
             from_option id].
      rewrite state_mismatch_same by done. apply exchange_and_store_Raise.
    + intros d Hd. pose proof (eq_trans (eq_sym Hd) Hdeadline) as [= ->]. done.
Qed.

(** X18.  An authorization lapses.  A callback that presents the genuine
    state later than 600 after the authorization is rejected with
    [HTTPException(400, 'State does not match.')]; the lookup is all it
    did, and it has removed the stale entry. *)
Theorem authorize_callback_expired nonce t0 user_id org_id w net t_get t_set
    request :
  serializable (state_data_of nonce user_id org_id) →
  truthy (of_option (query_get (query_params request) "error")) = false →
  query_get (query_params request) "state"
  = Some (json_dumps (state_data_of nonce user_id org_id)) →
  t_get > t0 + 600 →
  let w1 := snd (authorize_hubspot nonce t0 user_id org_id w) in
  let run := oauth2callback_hubspot net t_get t_set request w1 in
  fst run = Raise (HTTPException 400 "State does not match.")
  ∧ trace (snd run) = trace w1 ++ [CacheGet (state_key org_id user_id)]
  ∧ absent (state_key org_id user_id) (snd run).
Proof.
  intros Hser Herr Hstate Ht w1 run. subst run.
  destruct (authorize_hubspot_entry nonce t0 user_id org_id w)
    as [Hsaved Hdeadline].
  fold w1 in Hsaved, Hdeadline.
  rewrite (callback_stages _ _ _ _ _ _ _ Herr Hstate (proj2 Hser)).
  cbn [state_data_of dict_lookup String.eqb Ascii.eqb Bool.eqb default
         from_option id].
  rewrite (get_value_redis_expired _ _ _ _ _ Hdeadline Hsaved Ht).
  cbn. split; [done|]. split; [done|]. split; apply lookup_delete_eq.
Qed.

(** X19.  Stored credentials lapse.  After an authorization and the
    callback that stored the token response, a retrieval later than 600
    after the callback's write ends in
    [HTTPException(400, 'No credentials found.')], and has removed the
    stale entry. *)
Theorem credentials_expire nonce t0 user_id org_id w net t_get t_set request
    status body now :
  serializable (state_data_of nonce user_id org_id) →
  truthy (of_option (query_get (query_params request) "error")) = false →
  query_get (query_params request) "state"
  = Some (json_dumps (state_data_of nonce user_id org_id)) →
  t_get ≤ t0 + 600 →
  client_post net token_url
    (token_request_data (query_get (query_params request) "code"))
    token_request_headers
  = Returned {| status_code := status; json := Returned body |} →
  now > t_set + 600 →
  let w2 :=
    snd (oauth2callback_hubspot net t_get t_set request
           (snd (authorize_hubspot nonce t0 user_id org_id w))) in
  fst (get_hubspot_credentials now user_id org_id w2)
  = Raise (HTTPException 400 "No credentials found.")
  ∧ absent (credentials_key org_id user_id)
      (snd (get_hubspot_credentials now user_id org_id w2)).
Proof.
  intros Hser Herr Hstate Ht Hpost Hnow w2. subst w2.
  rewrite (callback_after_authorize _ _ _ _ _ _ _ _ _ Hser Herr Hstate Ht).
  unfold exchange_and_store. rewrite Hpost. cbn [json snd].
  unfold get_hubspot_credentials.
  erewrite bind_Ok.
  2:{ eapply get_value_redis_expired; [| |exact Hnow]; cbn;
        apply lookup_insert_eq. }
  cbn. split; [done|]. split; apply lookup_delete_eq.
Qed.

(** X12.  A retrieval that fails keeps the entry.  When the text stored
    under the credentials key is live but is not JSON, the retrieval ends
    in the decoder's [JSONDecodeError]; when it parses to an empty (falsy)
    value, in [HTTPException(400, 'No credentials found.')].  Either way
    the lookup is all that was done: the text is still stored.  Only when
    it parses to a value that is not empty is that value returned and the
    entry deleted. *)
Theorem retrieval_failure_keeps_entry now user_id org_id w text :
  _memory_storage w !! credentials_key org_id user_id = Some text →
  (∀ d, _memory_expiry w !! credentials_key org_id user_id = Some d →
        now ≤ d) →
  text ≠ EmptyString →
  let run := get_hubspot_credentials now user_id org_id w in
  (json_loads text = None →
   run = (Raise (PyExc "JSONDecodeError" (json_loads_error text)),
          log (CacheGet (credentials_key org_id user_id)) w))
  ∧ (∀ v, json_loads text = Some v → truthy v = false →
          run = (Raise (HTTPException 400 "No credentials found."),
                 log (CacheGet (credentials_key org_id user_id)) w))
  ∧ (∀ v, json_loads text = Some v → truthy v = true →
          run = (Ok v,
                 snd (delete_key_redis (credentials_key org_id user_id)
                        (log (CacheGet (credentials_key org_id user_id)) w)))).
Proof.
  intros Hv Hlive Hne run. subst run. unfold get_hubspot_credentials.
  apply String.eqb_neq in Hne.
  split; [|split].
  - intros Hloads.
    rewrite (bind_Ok _ _ _ _ _ (get_value_redis_live _ _ _ _ Hv Hlive)).
    cbn [of_option truthy]. rewrite Hne. cbn [negb py_json_loads].
    by rewrite Hloads.
  - intros v Hloads Hfalsy.
    rewrite (bind_Ok _ _ _ _ _ (get_value_redis_live _ _ _ _ Hv Hlive)).
    cbn [of_option truthy]. rewrite Hne. cbn [negb py_json_loads].
    by rewrite Hloads, bind_lift_Ok, Hfalsy.
  - intros v Hloads Htruthy.
    rewrite (bind_Ok _ _ _ _ _ (get_value_redis_live _ _ _ _ Hv Hlive)).
    cbn [of_option truthy]. rewrite Hne. cbn [negb py_json_loads].
    by rewrite Hloads, bind_lift_Ok, Htruthy.
Qed.

(** *** Keys *)

Lemma string_app_assoc (a b c : string) : (a +:+ b) +:+ c = a +:+ (b +:+ c).
Proof.
  induction a as [|x a IH]; [done|].
  change (String x ((a +:+ b) +:+ c) = String x (a +:+ b +:+ c)).
  by f_equal.
Qed.

(** X9.  The keys are the texts [prefix:org:user], so two pairs whose
    [str(org_id):str(user_id)] agree share their entries: a retrieval for
    one pair behaves, on every store, as a retrieval for the other, and
    an authorization for one writes what an authorization for the other
    writes.  Moving a colon from the organisation to the user gives such
    pairs. *)
Theorem keys_collide now nonce user_id org_id user_id' org_id' w :
  py_str org_id +:+ ":" +:+ py_str user_id
  = py_str org_id' +:+ ":" +:+ py_str user_id' →
  (get_hubspot_credentials now user_id org_id w
   = get_hubspot_credentials now user_id' org_id' w)
  ∧ (_memory_storage (snd (authorize_hubspot nonce now user_id org_id w))
       !! state_key org_id' user_id'
     = Some (json_dumps (state_data_of nonce user_id org_id)))
  ∧ (∀ o x u : string,
       py_str (VStr (o +:+ ":" +:+ x)) +:+ ":" +:+ py_str (VStr u)
       = py_str (VStr o) +:+ ":" +:+ py_str (VStr (x +:+ ":" +:+ u))).
Proof.
  intros Hsame.
  assert (credentials_key org_id user_id = credentials_key org_id' user_id')
    as Hc.
  { unfold credentials_key. by rewrite Hsame. }
  assert (state_key org_id user_id = state_key org_id' user_id') as Hs.
  { unfold state_key. by rewrite Hsame. }
  split; [|split].
  - unfold get_hubspot_credentials. by rewrite Hc.
  - rewrite <- Hs. apply authorize_hubspot_entry.
  - intros o x u. exact (string_app_assoc o (":" +:+ x) (":" +:+ u)).
Qed.

(** *** What the handlers leave alone *)

Lemma leaves_ret {A} k (a : A) : leaves k (mret a).
Proof. by intros w. Qed.

Lemma leaves_raise {A} k e : leaves k (raise (A := A) e).
Proof. by intros w. Qed.

Lemma leaves_lift {A} k (r : result A) : leaves k (lift r).
Proof. by intros w. Qed.

Lemma leaves_post k net url data headers : leaves k (post net url data headers).
Proof. by intros w. Qed.

Lemma leaves_bind {A B} k (m : M A) (f : A → M B) :
  leaves k m → (∀ a, leaves k (f a)) → leaves k (m ≫= f).
Proof.
  intros Hm Hf w. specialize (Hm w). unfold mbind, M_bind.
  destruct (m w) as [[a|e] w']; [|done].
  eapply same_at_trans; [exact Hm | apply Hf].
Qed.

Lemma leaves_asyncio_gather {A B} k (a : M A) (b : M B) :
  leaves k a → leaves k b → leaves k (asyncio_gather a b).
Proof.
  intros Ha Hb w. specialize (Ha w). unfold asyncio_gather.
  destruct (a w) as [ra w1]. specialize (Hb w1).
  destruct (b w1) as [rb w2].
  assert (same_at k w w2) by by eapply same_at_trans.
  by destruct ra, rb.
Qed.

Ltac leaves_step :=
  match goal with
  | |- leaves _ (_ ≫= _) => apply leaves_bind; [|intros ?]
  | |- leaves _ (if ?b then _ else _) => destruct b
  | |- leaves _ (let _ := _ in _) => cbv zeta
  | |- leaves _ (mret _) => apply leaves_ret
  | |- leaves _ (raise _) => apply leaves_raise
  | |- leaves _ (lift _) => apply leaves_lift
  | |- leaves _ (post _ _ _ _) => apply leaves_post
  | |- leaves _ (asyncio_gather _ _) => apply leaves_asyncio_gather
  | |- leaves _ (add_key_value_redis _ _ _ _) =>
      apply leaves_add_key_value_redis; solve [auto]
  | |- leaves _ (get_value_redis _ _) =>
      apply leaves_get_value_redis; solve [auto]
  | |- leaves _ (delete_key_redis _) =>
      apply leaves_delete_key_redis; solve [auto]
  end.

(** The callback of a request whose state is an object leaves every
    key but the two built from that object. *)
Lemma callback_leaves k net t_get t_set request s sd :
  truthy (of_option (query_get (query_params request) "error")) = false →
  query_get (query_params request) "state" = Some s →
  json_loads s = Some (VDict sd) →
  k ≠ state_key (default VNone (dict_lookup "org_id" sd))
        (default VNone (dict_lookup "user_id" sd)) →
  k ≠ credentials_key (default VNone (dict_lookup "org_id" sd))
        (default VNone (dict_lookup "user_id" sd)) →
  leaves k (oauth2callback_hubspot net t_get t_set request).
Proof.
  intros Herr Hstate Hs Hks Hkc w.
  rewrite (callback_stages _ _ _ _ _ _ _ Herr Hstate Hs).
  set (org_id := default VNone (dict_lookup "org_id" sd)) in *.
  set (user_id := default VNone (dict_lookup "user_id" sd)) in *.
  pose proof (leaves_get_value_redis k t_get _ Hks w) as Hget.
  destruct (get_value_redis t_get (state_key org_id user_id) w)
    as [[saved_state|e] w1]; [|done].
  cbn [snd] in Hget.
  destruct (state_mismatch _ saved_state) as [[|]|e]; [done| |done].
  eapply same_at_trans; [exact Hget|].
  assert (same_at k w1
            (after_exchange (query_get (query_params request) "code")
               org_id user_id w1)) as Hdel.
  { apply (leaves_delete_key_redis k _ Hks
             (log (HttpPost token_url
                     (token_request_data
                        (query_get (query_params request) "code"))) w1)). }
  unfold exchange_and_store.
  destruct (client_post net _ _ _) as [response|cls msg]; [|done].
  destruct (json response) as [body|cls msg]; [|done].
  eapply same_at_trans; [exact Hdel|].
  by apply leaves_add_key_value_redis.
Qed.

(** X17.  Each handler acts on its own keys.  An authorization leaves
    every key but its state key as it was; a retrieval, every key but its
    credentials key; a callback, every key that is neither a state key
    nor a credentials key, and when its state parses to an object, every
    key but the two built from that object's [org_id] and [user_id]. *)
Theorem handlers_touch_own_keys k :
  (∀ nonce now user_id org_id,
     k ≠ state_key org_id user_id →
     leaves k (authorize_hubspot nonce now user_id org_id))
  ∧ (∀ now user_id org_id,
       k ≠ credentials_key org_id user_id →
       leaves k (get_hubspot_credentials now user_id org_id))
  ∧ (∀ net t_get t_set request,
       (∀ org_id user_id, k ≠ state_key org_id user_id) →
       (∀ org_id user_id, k ≠ credentials_key org_id user_id) →
       leaves k (oauth2callback_hubspot net t_get t_set request))
  ∧ (∀ net t_get t_set request s sd,
       truthy (of_option (query_get (query_params request) "error")) = false →
       query_get (query_params request) "state" = Some s →
       json_loads s = Some (VDict sd) →
       let org_id := default VNone (dict_lookup "org_id" sd) in
       let user_id := default VNone (dict_lookup "user_id" sd) in
       k ≠ state_key org_id user_id →
       k ≠ credentials_key org_id user_id →
       leaves k (oauth2callback_hubspot net t_get t_set request)).
Proof.
  split; [|split; [|split]].
  - intros nonce now user_id org_id Hk. unfold authorize_hubspot.
    repeat leaves_step.
  - intros now user_id org_id Hk. unfold get_hubspot_credentials.
    repeat leaves_step.
  - intros net t_get t_set request Hs Hc. unfold oauth2callback_hubspot.
    repeat leaves_step.
  - intros net t_get t_set request s sd Herr Hstate Hs org_id user_id Hks Hkc.
    by apply callback_leaves with (s := s) (sd := sd).
Qed.

(** The state check raises nothing but exceptions of the library. *)
Lemma state_mismatch_Raise original_state saved_state e :
  state_mismatch original_state saved_state = Raise e →
  is_HTTPException e = false.
Proof.
  unfold state_mismatch.
  destruct (negb (truthy (of_option saved_state))); [done|].
  destruct saved_state as [saved|]; [|by intros [= <-]].
  cbn [of_option py_json_loads].
  destruct (json_loads saved) as [v|]; [|by intros [= <-]].
  destruct v; by intros [= <-].
Qed.

(** X20.  A callback that ends in an [HTTPException] has contacted nobody
    and written nothing: the status is 400, and what it did is nothing at
    all or the one lookup of the state. *)
Theorem callback_HTTPException_no_effect net t_get t_set request w status detail :
  fst (oauth2callback_hubspot net t_get t_set request w)
  = Raise (HTTPException status detail) →
  let w' := snd (oauth2callback_hubspot net t_get t_set request w) in
  status = 400
  ∧ (trace w' = trace w ∨ ∃ key, trace w' = trace w ++ [CacheGet key]).
Proof.
  intros Hrun w'. subst w'. revert Hrun.
  destruct (truthy (of_option (query_get (query_params request) "error")))
    eqn:Herr.
  { unfold oauth2callback_hubspot. rewrite Herr. cbn.
    intros [= <- _]. split; [done | by left]. }
  destruct (query_get (query_params request) "state") as [s|] eqn:Hstate.
  2:{ unfold oauth2callback_hubspot. rewrite Herr, Hstate. by intros [= ]. }
  destruct (json_loads s) as [v|] eqn:Hs.
  2:{ unfold oauth2callback_hubspot. rewrite Herr, Hstate.
      cbn [of_option py_json_loads]. rewrite Hs. by intros [= ]. }
  assert ((∃ sd, v = VDict sd) ∨ ∀ sd, v ≠ VDict sd) as [[sd ->]|Hnd].
  { destruct v; try by right. left. by eexists. }
  2:{ unfold oauth2callback_hubspot. rewrite Herr, Hstate.
      cbn [of_option py_json_loads]. rewrite Hs, bind_lift_Ok.
      destruct v; try by intros [= ]. by destruct (Hnd d). }
  rewrite (callback_stages _ _ _ _ _ _ _ Herr Hstate Hs).
  destruct (get_value_redis t_get _ w) as [[saved_state|e] w1] eqn:Hget.
  2:{ apply get_value_redis_Raise in Hget. intros [= ->]. done. }
  apply get_value_redis_trace in Hget.
  destruct (state_mismatch _ saved_state) as [[|]|e] eqn:Hmis.
  - intros [= <- _]. split; [done|]. right. by eexists.
  - intros H. by apply exchange_and_store_Raise in H.
  - apply state_mismatch_Raise in Hmis. intros [= ->]. done.
Qed.

(** What a retrieval returns depends on the two entries of its key only. *)
Lemma get_hubspot_credentials_same_at now user_id org_id w w' :
  same_at (credentials_key org_id user_id) w w' →
  fst (get_hubspot_credentials now user_id org_id w')
  = fst (get_hubspot_credentials now user_id org_id w).
Proof.
  intros Hsame.
  pose proof (get_value_redis_same_at now _ _ _ Hsame) as Hget.
  unfold get_hubspot_credentials.
  unfold mbind, mret, M_bind, M_ret, lift, raise.
  destruct (get_value_redis now (credentials_key org_id user_id) w)
    as [r w1].
  destruct (get_value_redis now (credentials_key org_id user_id) w')
    as [r' w1'].
  cbn [fst] in Hget. subst r'.
  destruct r as [credentials|e]; [|done].
  destruct (negb (truthy (of_option credentials))); [done|].
  destruct (py_json_loads (of_option credentials)) as [parsed|e]; [|done].
  by destruct (negb (truthy parsed)).
Qed.

(** X23.  Retrievals are not disturbed by the flows of others.  What a
    retrieval for a pair returns is the same before and after an
    authorization, a callback or a retrieval that works on other keys:
    for the callback, keys other than the two built from the [org_id]
    and [user_id] of its state. *)
Theorem retrieval_undisturbed now user_id org_id w :
  (∀ nonce t user_id' org_id',
     fst (get_hubspot_credentials now user_id org_id
            (snd (authorize_hubspot nonce t user_id' org_id' w)))
     = fst (get_hubspot_credentials now user_id org_id w))
  ∧ (∀ t user_id' org_id',
       credentials_key org_id user_id ≠ credentials_key org_id' user_id' →
       fst (get_hubspot_credentials now user_id org_id
              (snd (get_hubspot_credentials t user_id' org_id' w)))
       = fst (get_hubspot_credentials now user_id org_id w))
  ∧ (∀ net t_get t_set request s sd,
       truthy (of_option (query_get (query_params request) "error")) = false →
       query_get (query_params request) "state" = Some s →
       json_loads s = Some (VDict sd) →
       credentials_key org_id user_id
       ≠ credentials_key (default VNone (dict_lookup "org_id" sd))
           (default VNone (dict_lookup "user_id" sd)) →
       fst (get_hubspot_credentials now user_id org_id
              (snd (oauth2callback_hubspot net t_get t_set request w)))
       = fst (get_hubspot_credentials now user_id org_id w)).
Proof.
  split; [|split].
  - intros nonce t user_id' org_id'. apply get_hubspot_credentials_same_at.
    assert (leaves (credentials_key org_id user_id)
              (authorize_hubspot nonce t user_id' org_id')) as H; [|apply H].
    unfold authorize_hubspot. leaves_step; [|leaves_step].
    apply leaves_add_key_value_redis. intros Heq.
    by apply (state_key_ne_credentials_key org_id' user_id' org_id user_id).
  - intros t user_id' org_id' Hne. apply get_hubspot_credentials_same_at.
    assert (leaves (credentials_key org_id user_id)
              (get_hubspot_credentials t user_id' org_id')) as H; [|apply H].
    unfold get_hubspot_credentials. repeat leaves_step.
  - intros net t_get t_set request s sd Herr Hstate Hs Hne.
    apply get_hubspot_credentials_same_at.
    apply callback_leaves with (s := s) (sd := sd); try done.
Qed.

End Flow.

(** ** Further properties: the item fetcher of hubspot.py *)

Section Fetcher.
Context {lib : PyLib}.

(** *** Records and items *)

Lemma rmap_Ok_iff {A B} (f : A → result B) l l' :
  rmap f l = Ok l' ↔ Forall2 (λ x y, f x = Ok y) l l'.
Proof.
  revert l'. induction l as [|x l IH]; intros l'; cbn.
  - split.
    + intros [= <-]. constructor.
    + intros H. by inversion H.
  - destruct (f x) as [y|e] eqn:Hx; cbn.
    + destruct (rmap f l) as [ys|e] eqn:Hl; cbn.
      * split.
        -- intros [= <-]. constructor; [done|]. by apply IH.
        -- intros H. inversion H as [|? y' ? ys' Hy Hys]; subst.
           apply IH in Hys. congruence.
      * split; [done|].
        intros H. inversion H as [|? y' ? ys' Hy Hys]; subst.
        apply IH in Hys. done.
    + split; [done|].
      intros H. inversion H as [|? y' ? ys' Hy Hys]; subst. congruence.
Qed.

Lemma rmap_Raise_elem {A B} (f : A → result B) l x e :
  x ∈ l → f x = Raise e → ∃ e', rmap f l = Raise e'.
Proof.
  intros Hin Hraise.
  destruct (rmap f l) as [ys|e'] eqn:Hok; [|by eexists].
  apply rmap_Ok_iff in Hok.
  apply list_elem_of_lookup in Hin as [i Hi].
  destruct (Forall2_lookup_l _ _ _ _ _ Hok Hi) as (y & _ & Hy).
  congruence.
Qed.

(** X14.  From a 200 response whose body is an object with a list under
    ['results'], the items are the items of the records, one for each
    and in their order; and there are items only if every record gives
    one: a single record that raises leaves none. *)
Theorem items_of_response_records item response data records :
  status_code response = 200 →
  json response = Returned (VDict data) →
  dict_lookup "results" data = Some (VList records) →
  (∀ items,
     items_of_response item response = Ok items
     ↔ Forall2 (λ record it, item record = Ok it) records items)
  ∧ (∀ items, items_of_response item response = Ok items →
              length items = length records)
  ∧ (∀ record e, record ∈ records → item record = Raise e →
                 ∃ e', items_of_response item response = Raise e').
Proof.
  intros Hstatus Hjson Hresults.
  assert (items_of_response item response = rmap item records) as Hrun.
  { unfold items_of_response. rewrite Hstatus, Hjson. cbn.
    by rewrite Hresults. }
  rewrite Hrun. split; [|split].
  - intros items. apply rmap_Ok_iff.
  - intros items Hok. apply rmap_Ok_iff in Hok.
    symmetry. by eapply Forall2_length.
  - intros record e. apply rmap_Raise_elem.
Qed.

(** X15.  The contact builder accepts exactly the dicts whose
    ['properties'], when given, is a dict, and whose ['firstname'] and
    ['lastname'] there, when given, are strings; a name that is missing
    counts as the empty string, every other missing field as [None].
    Anything else, a name that is [null] included, raises. *)
Theorem contact_item_accepts_iff v item_type item :
  create_integration_item_metadata_object v item_type = Ok item
  ↔ ∃ d p firstname lastname,
      v = VDict d
      ∧ default (VDict []) (dict_lookup "properties" d) = VDict p
      ∧ default (VStr EmptyString) (dict_lookup "firstname" p) = VStr firstname
      ∧ default (VStr EmptyString) (dict_lookup "lastname" p) = VStr lastname
      ∧ item
        = IntegrationItem.make (default VNone (dict_lookup "id" d)) item_type
            (VStr ((firstname +:+ " ") +:+ lastname))
            (default VNone (dict_lookup "createdAt" d))
            (default VNone (dict_lookup "updatedAt" d))
            ("https://app.hubspot.com/contacts/"
             +:+ py_str (default VNone (dict_lookup "id" d))).
Proof.
  unfold create_integration_item_metadata_object. split.
  - destruct v as [| | | | |d]; try by intros [= ].
    cbn [py_get mbind result_bind].
    destruct (default (VDict []) (dict_lookup "properties" d))
      as [| | | | |p] eqn:Hp; try by intros [= ].
    cbn [py_get mbind result_bind].
    destruct (default (VStr EmptyString) (dict_lookup "firstname" p))
      as [| | |firstname| |] eqn:Hfn; try by intros [= ].
    cbn [py_add mbind result_bind].
    destruct (default (VStr EmptyString) (dict_lookup "lastname" p))
      as [| | |lastname| |] eqn:Hln; try by intros [= ].
    cbn. intros [= <-]. by exists d, p, firstname, lastname.
  - intros (d & p & firstname & lastname & -> & Hp & Hfn & Hln & ->).
    cbn [py_get mbind result_bind]. rewrite Hp.
    cbn [py_get mbind result_bind]. rewrite Hfn, Hln. reflexivity.
Qed.

(** X16.  The company and the deal builders accept exactly the dicts
    whose ['properties'], when given, is a dict.  The name is whatever is
    stored under ['name'] (['dealname']), [null] included; the default
    name is used only when the key is missing. *)
Theorem company_deal_item_accepts_iff v item :
  (company_item v = Ok item
   ↔ ∃ d p,
       v = VDict d
       ∧ default (VDict []) (dict_lookup "properties" d) = VDict p
       ∧ item
         = IntegrationItem.make (default VNone (dict_lookup "id" d)) "Company"
             (default (VStr "Unnamed Company") (dict_lookup "name" p))
             (default VNone (dict_lookup "createdAt" d))
             (default VNone (dict_lookup "updatedAt" d))
             ("https://app.hubspot.com/contacts/"
              +:+ py_str (default VNone (dict_lookup "id" d))))
  ∧ (deal_item v = Ok item
     ↔ ∃ d p,
         v = VDict d
         ∧ default (VDict []) (dict_lookup "properties" d) = VDict p
         ∧ item
           = IntegrationItem.make (default VNone (dict_lookup "id" d)) "Deal"
               (default (VStr "Unnamed Deal") (dict_lookup "dealname" p))
               (default VNone (dict_lookup "createdAt" d))
               (default VNone (dict_lookup "updatedAt" d))
               ("https://app.hubspot.com/contacts/"
                +:+ py_str (default VNone (dict_lookup "id" d)))).
Proof.
  split.
  - unfold company_item. split.
    + destruct v as [| | | | |d]; try by intros [= ].
      cbn [py_get mbind result_bind].
      destruct (default (VDict []) (dict_lookup "properties" d))
        as [| | | | |p] eqn:Hp; try by intros [= ].
      cbn. intros [= <-]. by exists d, p.
    + intros (d & p & -> & Hp & ->).
      cbn [py_get mbind result_bind]. by rewrite Hp.
  - unfold deal_item. split.
    + destruct v as [| | | | |d]; try by intros [= ].
      cbn [py_get mbind result_bind].
      destruct (default (VDict []) (dict_lookup "properties" d))
        as [| | | | |p] eqn:Hp; try by intros [= ].
      cbn. intros [= <-]. by exists d, p.
    + intros (d & p & -> & Hp & ->).
      cbn [py_get mbind result_bind]. by rewrite Hp.
Qed.

(** *** The requests *)

(** X21.  Before any request, [get_items_hubspot] given a string ends in
    the decoder's [JSONDecodeError] when the string is not JSON, in the
    [AttributeError] of [.get] when it is JSON but not an object, and in
    [HTTPException(400, 'No access token found in credentials.')] when
    the object's ['access_token'] is missing or empty (falsy: [null],
    [''], [0], [false], [[]], [{}]).  In each case the world is left as
    it was. *)
Theorem items_token_check net s w :
  (json_loads s = None →
   get_items_hubspot net (VStr s) w
   = (Raise (PyExc "JSONDecodeError" (json_loads_error s)), w))
  ∧ (∀ v, json_loads s = Some v → (∀ d, v ≠ VDict d) →
          get_items_hubspot net (VStr s) w
          = (Raise (PyExc "AttributeError"
                      ("'" +:+ type_name v
                       +:+ "' object has no attribute 'get'")), w))
  ∧ (∀ d, json_loads s = Some (VDict d) →
          truthy (default VNone (dict_lookup "access_token" d)) = false →
          get_items_hubspot net (VStr s) w
          = (Raise (HTTPException 400 "No access token found in credentials."),
             w)).
Proof.
  unfold get_items_hubspot, py_json_loads. split; [|split].
  - by intros ->.
  - intros v -> Hnd. rewrite bind_lift_Ok.
    destruct v; try reflexivity. by destruct (Hnd d).
  - intros d -> Hfalsy. rewrite bind_lift_Ok. cbn [py_get].
    by rewrite bind_lift_Ok, Hfalsy.
Qed.

Lemma store_untouched_get net url headers params :
  store_untouched (get net url headers params).
Proof. by intros w. Qed.

Lemma store_untouched_lift {A} (r : result A) : store_untouched (lift r).
Proof. by intros w. Qed.

Lemma store_untouched_ret {A} (a : A) : store_untouched (mret a).
Proof. by intros w. Qed.

Lemma store_untouched_raise {A} e : store_untouched (raise (A := A) e).
Proof. by intros w. Qed.

Lemma store_untouched_bind {A B} (m : M A) (f : A → M B) :
  store_untouched m → (∀ a, store_untouched (f a)) → store_untouched (m ≫= f).
Proof.
  intros Hm Hf w. destruct (Hm w) as [Hs He]. unfold mbind, M_bind.
  destruct (m w) as [[a|e] w']; [|done].
  destruct (Hf a w') as [Hs' He']. cbn [snd] in *. split; congruence.
Qed.

Lemma store_untouched_try_except {A} (body : M A) handler :
  store_untouched body → (∀ e, store_untouched (handler e)) →
  store_untouched (try_except body handler).
Proof.
  intros Hm Hh w. destruct (Hm w) as [Hs He]. unfold try_except.
  destruct (body w) as [[a|e] w']; [done|].
  destruct (Hh e w') as [Hs' He']. cbn [snd] in *. split; congruence.
Qed.

Ltac store_untouched_step :=
  match goal with
  | |- store_untouched (_ ≫= _) => apply store_untouched_bind; [|intros ?]
  | |- store_untouched (try_except _ _) =>
      apply store_untouched_try_except; [|intros ?]
  | |- store_untouched (if ?b then _ else _) => destruct b
  | |- store_untouched (let _ := _ in _) => cbv zeta
  | |- store_untouched (mret _) => apply store_untouched_ret
  | |- store_untouched (raise _) => apply store_untouched_raise
  | |- store_untouched (lift _) => apply store_untouched_lift
  | |- store_untouched (get _ _ _ _) => apply store_untouched_get
  end.

(** The trace after the first, the second and the third request. *)
Lemma trace_log3 w a b c :
  trace (log c (log b (log a w))) = trace w ++ [a; b; c].
Proof. cbn. by rewrite <- !app_assoc. Qed.

Lemma trace_log2 w a b : trace (log b (log a w)) = trace w ++ [a; b].
Proof. cbn. by rewrite <- !app_assoc. Qed.

(** X13.  [get_items_hubspot] never reads or writes the store, whatever
    it is given.  With a token, what it sends is the contacts request,
    then the companies request, then the deals request, each with the
    bearer token and its limit (100, 50, 50): the requests sent are the
    first one, two or three of these, all three when it returns, and
    nothing else is done. *)
Theorem items_requests_in_order net credentials w :
  let run := get_items_hubspot net credentials w in
  _memory_storage (snd run) = _memory_storage w
  ∧ _memory_expiry (snd run) = _memory_expiry w
  ∧ (∀ s d access_token,
       credentials = VStr s →
       json_loads s = Some (VDict d) →
       dict_lookup "access_token" d = Some access_token →
       truthy access_token = true →
       ∃ n, (1 ≤ n ≤ 3)%nat
            ∧ trace (snd run) = trace w ++ take n (items_requests access_token)
            ∧ (∀ items, fst run = Ok items → n = 3%nat)).
Proof.
  intros run.
  assert (store_untouched (get_items_hubspot net credentials)) as Hstore.
  { unfold get_items_hubspot. repeat store_untouched_step. }
  destruct (Hstore w) as [Hs He]. split; [done|]. split; [done|].
  intros s d access_token -> Hloads Htok Htruthy. subst run.
  unfold get_items_hubspot, py_json_loads. rewrite Hloads, bind_lift_Ok.
  unfold py_get. rewrite Htok. cbn [default from_option id].
  rewrite bind_lift_Ok, Htruthy. cbn [negb].
  unfold try_except, get, items_requests.
  unfold mbind, mret, M_bind, M_ret, lift, raise.
  destruct (requests_get net _ _ [("limit", 100)]) as [r1|cls msg];
    cbn [outcome_result];
    [|exists 1%nat; split; [lia|]; split; [reflexivity | done]].
  destruct (items_of_response _ r1) as [contacts|e];
    [|exists 1%nat; split; [lia|]; split; [reflexivity | done]].
  destruct (requests_get net "https://api.hubapi.com/crm/v3/objects/companies"
              _ _) as [r2|cls msg];
    cbn [outcome_result];
    [|exists 2%nat; split; [lia|]; split; [apply trace_log2 | done]].
  destruct (items_of_response _ r2) as [companies|e];
    [|exists 2%nat; split; [lia|]; split; [apply trace_log2 | done]].
  destruct (requests_get net "https://api.hubapi.com/crm/v3/objects/deals"
              _ _) as [r3|cls msg];
    cbn [outcome_result];
    [|exists 3%nat; split; [lia|]; split; [apply trace_log3 | done]].
  destruct (items_of_response _ r3) as [deals|e];
    exists 3%nat; (split; [lia|]); (split; [apply trace_log3 | done]).
Qed.

(** X22.  One contact record that the builder rejects, wherever it is in
    the list, fails the whole operation: the result is an
    [HTTPException(500)] with the fetch-error text, no item is returned,
    and the companies and the deals are not even requested. *)
Theorem items_bad_record_aborts net s d access_token w response data records
    record e :
  json_loads s = Some (VDict d) →
  dict_lookup "access_token" d = Some access_token →
  truthy access_token = true →
  requests_get net "https://api.hubapi.com/crm/v3/objects/contacts"
    (bearer_headers access_token) [("limit", 100)]
  = Returned response →
  status_code response = 200 →
  json response = Returned (VDict data) →
  dict_lookup "results" data = Some (VList records) →
  record ∈ records →
  create_integration_item_metadata_object record "Contact" = Raise e →
  ∃ cause,
    get_items_hubspot net (VStr s) w
    = (Raise (HTTPException 500
                ("Error fetching HubSpot data: " +:+ exn_str cause)),
       log (HttpGet "https://api.hubapi.com/crm/v3/objects/contacts"
              (bearer_headers access_token) [("limit", 100)]) w).
Proof.
  intros Hloads Htok Htruthy Hget Hstatus Hjson Hresults Hin Hraise.
  destruct (rmap_Raise_elem
              (λ contact,
                 create_integration_item_metadata_object contact "Contact")
              records record e Hin Hraise) as [cause Hcause].
  exists cause.
  unfold get_items_hubspot, py_json_loads. rewrite Hloads, bind_lift_Ok.
  unfold py_get. rewrite Htok. cbn [default from_option id].
  rewrite bind_lift_Ok, Htruthy. cbn [negb].
  unfold try_except, get.
  unfold mbind, mret, M_bind, M_ret, lift, raise.
  rewrite Hget. cbn [outcome_result].
  unfold items_of_response. rewrite Hstatus, Hjson. cbn.
  rewrite Hresults. cbn. by rewrite Hcause.
Qed.

End Fetcher.

(** ** The further properties on the reference library *)

Section MoreExamples.
#[local] Existing Instance Reference.lib.

(** At the deadline itself the value is still returned. *)
Lemma store_set_then_get_witness :
  fst (get_value_redis 15 "k" short_lived) = Ok (Some "v")
  ∧ fst (get_value_redis 16 "k" short_lived) = Ok None.
Proof.
  split.
  - exact (store_set_then_get 15 5 10 "k" "v" empty_world ltac:(lia)).
  - exact (store_set_then_get 16 5 10 "k" "v" empty_world ltac:(lia)).
Defined.

Lemma store_expired_purged_witness :
  fst (get_value_redis 16 "k" short_lived) = Ok None
  ∧ fst (get_value_redis 7 "k" (snd (get_value_redis 16 "k" short_lived)))
    = Ok None.
Proof.
  destruct (store_expired_purged 16 "k" short_lived 15 "v")
    as (H1 & _ & H2).
  - reflexivity.
  - reflexivity.
  - lia.
  - split; [exact H1 | exact (H2 7)].
Defined.

(** Written without a time to live over an entry whose deadline has
    passed, the new value is not returned. *)
Lemma store_set_without_expire_witness :
  fst (get_value_redis 100 "k"
         (snd (add_key_value_redis 100 "k" "new" None short_lived)))
  = Ok None.
Proof.
  destruct (store_set_without_expire 100 100 "k" "new" None short_lived)
    as (_ & _ & H).
  - by left.
  - apply (H 15); [reflexivity | lia].
Defined.

Lemma store_delete_then_get_witness :
  fst (get_value_redis 6 "k" (snd (delete_key_redis "k" short_lived)))
  = Ok None.
Proof. exact (proj1 (store_delete_then_get 6 "k" short_lived)). Defined.

Lemma store_other_keys_witness :
  fst (get_value_redis 6 "k" (snd (delete_key_redis "other" short_lived)))
  = fst (get_value_redis 6 "k" short_lived).
Proof.
  destruct (store_other_keys 6 "k" 0 "other" "x" None short_lived)
    as (_ & _ & H); [discriminate | exact H].
Defined.

Lemma called_back_reachable : reachable called_back.
Proof. apply reachable_callback, reachable_authorize, reachable_start. Qed.

Lemma reachable_store_ok_witness :
  store_ok called_back
  ∧ ∃ o, fst (get_value_redis 2000 "hubspot_credentials:o1:u1" called_back)
         = Ok o.
Proof.
  destruct (reachable_store_ok called_back called_back_reachable) as [H1 H2].
  split; [exact H1 | exact (H2 2000 "hubspot_credentials:o1:u1")].
Defined.

Lemma get_value_redis_raises_iff_witness :
  get_value_redis 6 "k" inconsistent
  = (Raise (PyExc "KeyError" "'k'"), log (CacheGet "k") inconsistent).
Proof.
  destruct (get_value_redis_raises_iff 6 "k" inconsistent) as [Hiff Hrun].
  destruct (proj2 Hiff) as [e He].
  - split; [|reflexivity]. exists 5. split; [reflexivity | lia].
  - exact (Hrun e He).
Defined.

(** The state of the second authorization, serialised. *)
Lemma second_state_serializable :
  serializable (state_data_of "n1nce" (VStr "u1") (VStr "o1")).
Proof. split; by vm_compute. Qed.

Lemma forged_state_serializable :
  serializable (state_data_of "forged" (VStr "u1") (VStr "o1")).
Proof. split; by vm_compute. Qed.

(** After the second authorization the callback with the first state is
    rejected. *)
Lemma authorize_twice_last_wins_witness :
  fst (oauth2callback_hubspot (token_endpoint 200 example_credentials)
         1101 1102 example_callback authorized_again)
  = Raise (HTTPException 400 "State does not match.").
Proof.
  destruct (authorize_twice_last_wins "n0nce" "n1nce" 1000 1100 (VStr "u1")
              (VStr "o1") empty_world example_state_serializable
              second_state_serializable ltac:(discriminate)
              (token_endpoint 200 example_credentials) 1101 1102
              example_callback eq_refl ltac:(lia)) as [H _].
  exact (H eq_refl).
Defined.

(** User [c] of organisation [a:b] and user [b:c] of organisation [a]. *)
Lemma keys_collide_witness :
  get_hubspot_credentials 1003 (VStr "c") (VStr "a:b") called_back
  = get_hubspot_credentials 1003 (VStr "b:c") (VStr "a") called_back
  ∧ _memory_storage
      (snd (authorize_hubspot "n0nce" 1000 (VStr "c") (VStr "a:b") empty_world))
    !! state_key (VStr "a") (VStr "b:c")
    = Some (json_dumps (state_data_of "n0nce" (VStr "c") (VStr "a:b"))).
Proof.
  destruct (keys_collide 1003 "n0nce" (VStr "c") (VStr "a:b") (VStr "b:c")
              (VStr "a") called_back eq_refl) as (H1 & _ & _).
  destruct (keys_collide 1000 "n0nce" (VStr "c") (VStr "a:b") (VStr "b:c")
              (VStr "a") empty_world eq_refl) as (_ & H2 & _).
  split; [exact H1 | exact H2].
Defined.

(** The token endpoint answers 400 with an error body: the callback
    completes and the error body is what is stored as credentials. *)
Lemma callback_ignores_status_witness :
  let run :=
    oauth2callback_hubspot (token_endpoint 400 example_error_body) 1001 1002
      example_callback authorized in
  fst run = Ok (HTMLResponse_content close_window_script)
  ∧ _memory_storage (snd run) !! "hubspot_credentials:o1:u1"
    = Some (json_dumps example_error_body).
Proof.
  destruct (callback_ignores_status "n0nce" 1000 (VStr "u1") (VStr "o1")
              empty_world (token_endpoint 400 example_error_body) 1001 1002
              example_callback 400 example_error_body
              example_state_serializable eq_refl eq_refl ltac:(lia) eq_refl)
    as (H1 & H2 & _).
  split; [exact H1 | exact H2].
Defined.

(** A forged callback, then the genuine one. *)
Lemma callback_mismatch_keeps_state_witness :
  let forged :=
    {| query_params :=
         [("code", "c0");
          ("state",
           json_dumps (state_data_of "forged" (VStr "u1") (VStr "o1")))] |} in
  oauth2callback_hubspot offline 1001 1002 forged authorized
  = (Raise (HTTPException 400 "State does not match."),
     log (CacheGet "hubspot_state:o1:u1") authorized)
  ∧ fst (oauth2callback_hubspot (token_endpoint 200 example_credentials)
           1003 1004 example_callback
           (snd (oauth2callback_hubspot offline 1001 1002 forged authorized)))
    = Ok (HTMLResponse_content close_window_script).
Proof.
  intros forged.
  destruct (callback_mismatch_keeps_state "n0nce" "forged" 1000 (VStr "u1")
              (VStr "o1") empty_world example_state_serializable
              forged_state_serializable ltac:(discriminate)
              offline 1001 1002 forged eq_refl eq_refl ltac:(lia))
    as [H1 _].
  split; [exact H1 | by vm_compute].
Defined.

(** The example callback, too late. *)
Lemma authorize_callback_expired_witness :
  let run :=
    oauth2callback_hubspot (token_endpoint 200 example_credentials) 1601 1602
      example_callback authorized in
  fst run = Raise (HTTPException 400 "State does not match.")
  ∧ absent "hubspot_state:o1:u1" (snd run).
Proof.
  destruct (authorize_callback_expired "n0nce" 1000 (VStr "u1") (VStr "o1")
              empty_world (token_endpoint 200 example_credentials) 1601 1602
              example_callback example_state_serializable eq_refl eq_refl
              ltac:(lia)) as (H1 & _ & H2).
  split; [exact H1 | exact H2].
Defined.

(** The example credentials, retrieved too late. *)
Lemma credentials_expire_witness :
  fst (get_hubspot_credentials 1603 (VStr "u1") (VStr "o1") called_back)
  = Raise (HTTPException 400 "No credentials found.").
Proof.
  exact (proj1 (credentials_expire "n0nce" 1000 (VStr "u1") (VStr "o1")
                  empty_world (token_endpoint 200 example_credentials)
                  1001 1002 example_callback 200 example_credentials 1603
                  example_state_serializable eq_refl eq_refl ltac:(lia)
                  eq_refl ltac:(lia))).
Defined.

(** The empty object stored as credentials: the retrieval fails and the
    entry stays. *)
Lemma retrieval_failure_keeps_entry_witness :
  get_hubspot_credentials 1003 (VStr "u1") (VStr "o1") called_back_empty
  = (Raise (HTTPException 400 "No credentials found."),
     log (CacheGet "hubspot_credentials:o1:u1") called_back_empty).
Proof.
  destruct (retrieval_failure_keeps_entry 1003 (VStr "u1") (VStr "o1")
              called_back_empty "{}") as (_ & H & _).
  - by vm_compute.
  - intros d Hd. vm_compute in Hd. injection Hd as <-. lia.
  - discriminate.
  - apply (H (VDict [])); [by vm_compute | reflexivity].
Defined.

(** A key of neither family is left alone by the example callback. *)
Lemma handlers_touch_own_keys_witness :
  same_at "hubspot_state:o2:u2" authorized
    (snd (oauth2callback_hubspot (token_endpoint 200 example_credentials)
            1001 1002 example_callback authorized)).
Proof.
  destruct (handlers_touch_own_keys "hubspot_state:o2:u2") as (_ & _ & _ & H).
  apply (H (token_endpoint 200 example_credentials) 1001 1002 example_callback
           example_encoded_state
           [("state", VStr "n0nce"); ("user_id", VStr "u1");
            ("org_id", VStr "o1")]).
  - reflexivity.
  - reflexivity.
  - by vm_compute.
  - discriminate.
  - discriminate.
Defined.

(** The forged callback ended in an [HTTPException]: its trace is the
    lookup. *)
Lemma callback_HTTPException_no_effect_witness :
  let run :=
    oauth2callback_hubspot offline 1001 1002
      {| query_params := [("code", "c0"); ("state", "{}")] |} authorized in
  trace (snd run) = trace authorized
  ∨ ∃ key, trace (snd run) = trace authorized ++ [CacheGet key].
Proof.
  exact (proj2 (callback_HTTPException_no_effect offline 1001 1002
                  {| query_params := [("code", "c0"); ("state", "{}")] |}
                  authorized 400 "State does not match." eq_refl)).
Defined.

(** Credentials that are not JSON, and an empty token. *)
Lemma items_token_check_witness :
  get_items_hubspot offline (VStr "tok") empty_world
  = (Raise (PyExc "JSONDecodeError" "Expecting value: line 1 column 1 (char 0)"),
     empty_world)
  ∧ get_items_hubspot offline
      (VStr (json_dumps (VDict [("access_token", VStr EmptyString)])))
      empty_world
    = (Raise (HTTPException 400 "No access token found in credentials."),
       empty_world).
Proof.
  split.
  - exact (proj1 (items_token_check offline "tok" empty_world) eq_refl).
  - destruct (items_token_check offline
                (json_dumps (VDict [("access_token", VStr EmptyString)]))
                empty_world) as (_ & _ & H).
    apply (H [("access_token", VStr EmptyString)]); [by vm_compute | reflexivity].
Defined.

(** Companies unreachable after the contacts were read: two requests
    went out, and the store is as it was. *)
Lemma items_requests_in_order_witness :
  let run :=
    get_items_hubspot
      (crm (results_response 200 [example_contact])
         (Raised "ConnectionError" "Connection refused")
         (results_response 200 [example_deal]))
      (VStr (json_dumps example_credentials)) called_back in
  _memory_storage (snd run) = _memory_storage called_back
  ∧ ∃ n, (1 ≤ n ≤ 3)%nat
         ∧ trace (snd run)
           = trace called_back ++ take n (items_requests (VStr "tok")).
Proof.
  intros run.
  destruct (items_requests_in_order
              (crm (results_response 200 [example_contact])
                 (Raised "ConnectionError" "Connection refused")
                 (results_response 200 [example_deal]))
              (VStr (json_dumps example_credentials)) called_back)
    as (H1 & _ & H2).
  split; [exact H1|].
  destruct (H2 (json_dumps example_credentials)
              [("access_token", VStr "tok"); ("expires_in", VInt 1800)]
              (VStr "tok") eq_refl ltac:(by vm_compute) eq_refl eq_refl)
    as (n & Hn & Htrace & _).
  exists n. split; [exact Hn | exact Htrace].
Defined.

(** Two contacts, the second with a first name that is not set: no item
    at all. *)
Lemma items_of_response_records_witness :
  ∃ e,
    items_of_response
      (λ contact, create_integration_item_metadata_object contact "Contact")
      {| status_code := 200;
         json :=
           Returned
             (VDict [("results",
                      VList [example_contact; example_contact_null])]) |}
    = Raise e.
Proof.
  destruct (items_of_response_records
              (λ contact,
                 create_integration_item_metadata_object contact "Contact")
              {| status_code := 200;
                 json :=
                   Returned
                     (VDict [("results",
                              VList [example_contact; example_contact_null])]) |}
              [("results", VList [example_contact; example_contact_null])]
              [example_contact; example_contact_null]
              eq_refl eq_refl eq_refl) as (_ & _ & H).
  apply (H example_contact_null
           (PyExc "TypeError"
              "unsupported operand type(s) for +: 'NoneType' and 'str'")).
  - apply list_elem_of_In. right. by left.
  - reflexivity.
Defined.

(** The example contact is accepted. *)
Lemma contact_item_accepts_iff_witness :
  create_integration_item_metadata_object example_contact "Contact"
  = Ok (IntegrationItem.make (VStr "1") "Contact" (VStr "A B") (VStr "t1")
          (VStr "t2") "https://app.hubspot.com/contacts/1").
Proof.
  apply contact_item_accepts_iff.
  exists [("id", VStr "1");
          ("properties", VDict [("firstname", VStr "A"); ("lastname", VStr "B")]);
          ("createdAt", VStr "t1"); ("updatedAt", VStr "t2")],
    [("firstname", VStr "A"); ("lastname", VStr "B")], "A", "B".
  repeat split.
Defined.

(** A company whose name is [null] keeps it. *)
Lemma company_deal_item_accepts_iff_witness :
  company_item (VDict [("id", VStr "9"); ("properties", VDict [("name", VNone)])])
  = Ok (IntegrationItem.make (VStr "9") "Company" VNone VNone VNone
          "https://app.hubspot.com/contacts/9").
Proof.
  apply company_deal_item_accepts_iff.
  exists [("id", VStr "9"); ("properties", VDict [("name", VNone)])],
    [("name", VNone)].
  repeat split.
Defined.

(** One contact without a first name among the contacts. *)
Lemma items_bad_record_aborts_witness :
  ∃ cause,
    fst (get_items_hubspot
           (crm (results_response 200 [example_contact; example_contact_null])
              (results_response 200 []) (results_response 200 [example_deal]))
           (VStr (json_dumps example_credentials)) empty_world)
    = Raise (HTTPException 500
               ("Error fetching HubSpot data: " +:+ exn_str cause)).
Proof.
  destruct (items_bad_record_aborts
              (crm (results_response 200 [example_contact; example_contact_null])
                 (results_response 200 [])
                 (results_response 200 [example_deal]))
              (json_dumps example_credentials)
              [("access_token", VStr "tok"); ("expires_in", VInt 1800)]
              (VStr "tok") empty_world
              {| status_code := 200;
                 json :=
                   Returned
                     (VDict [("results",
                              VList [example_contact; example_contact_null])]) |}
              [("results", VList [example_contact; example_contact_null])]
              [example_contact; example_contact_null]
              example_contact_null
              (PyExc "TypeError"
                 "unsupported operand type(s) for +: 'NoneType' and 'str'"))
    as [cause Hrun].
  - by vm_compute.
  - reflexivity.
  - reflexivity.
  - reflexivity.
  - reflexivity.
  - reflexivity.
  - reflexivity.
  - apply list_elem_of_In. right. by left.
  - reflexivity.
  - exists cause. by rewrite Hrun.
Defined.

(** The credentials of the example cycle are still returned after
    another user of the organisation has authorized. *)
Lemma retrieval_undisturbed_witness :
  fst (get_hubspot_credentials 1003 (VStr "u1") (VStr "o1")
         (snd (authorize_hubspot "n2nce" 1002 (VStr "u2") (VStr "o1")
                 called_back)))
  = Ok example_credentials.
Proof.
  rewrite (proj1 (retrieval_undisturbed 1003 (VStr "u1") (VStr "o1")
                    called_back) "n2nce" 1002 (VStr "u2") (VStr "o1")).
  by vm_compute.
Defined.

(** A lookup before the deadline leaves both dicts as they were. *)
Lemma lookup_only_purges_witness :
  _memory_storage (snd (get_value_redis 15 "k" short_lived))
  = _memory_storage short_lived
  ∧ _memory_expiry (snd (get_value_redis 15 "k" short_lived))
    = _memory_expiry short_lived.
Proof.
  destruct (lookup_only_purges 15 "k" short_lived) as [H|(d & Hd & Hgt & _)].
  - exact H.
  - vm_compute in Hd. injection Hd as <-. lia.
Defined.

End MoreExamples.
